(** * Zone-based micro-segmentation and zero-trust authentication

    A shallow embedding of [src/security/micro_segmentation.py] and
    [src/security/zero_trust.py], with the properties of the design
    document stated and settled against it.

    Conventions of the embedding.
    - A Python [int] is a [Z]; a counter of a metrics dictionary is a [Z]
      field of a record.
    - A dictionary keyed by device identifiers is a [gmap string _];
      [d.get(k)] is the lookup [d !! k].
    - A method that mutates [self] takes the manager and returns the new
      manager next to its result.
    - Calls to the [logging] module leave no trace in the manager's state and
      are left out, except in [verify_token], where the logged event is the
      only thing that tells two outcomes apart. *)

From Stdlib Require Import ZArith QArith Bool List Lia.
From stdpp Require Import base option list strings gmap.

Local Open Scope string_scope.
Local Open Scope Z_scope.

(** ** Micro-segmentation manager *)

Module MicroSegmentation.

(** [class SecurityZone(Enum)], in definition order. *)
Inductive SecurityZone : Set :=
  | EXTERNAL
  | DMZ
  | CLOUD_GATEWAY
  | IOT_TRUSTED
  | IOT_UNTRUSTED
  | IOT_QUARANTINE
  | MANAGEMENT
  | DATA_PROCESSING
  | AI_ANALYTICS
  | ADMIN.

#[export] Instance SecurityZone_eq_dec : EqDecision SecurityZone.
Proof. solve_decision. Defined.

(** [zone.value] *)
Definition zone_value (z : SecurityZone) : string :=
  match z with
  | EXTERNAL => "external"
  | DMZ => "dmz"
  | CLOUD_GATEWAY => "cloud_gateway"
  | IOT_TRUSTED => "iot_trusted"
  | IOT_UNTRUSTED => "iot_untrusted"
  | IOT_QUARANTINE => "iot_quarantine"
  | MANAGEMENT => "management"
  | DATA_PROCESSING => "data_processing"
  | AI_ANALYTICS => "ai_analytics"
  | ADMIN => "admin"
  end.

(** Iteration [for zone in SecurityZone] visits the members in definition
    order. *)
Definition all_zones : list SecurityZone :=
  [EXTERNAL; DMZ; CLOUD_GATEWAY; IOT_TRUSTED; IOT_UNTRUSTED; IOT_QUARANTINE;
   MANAGEMENT; DATA_PROCESSING; AI_ANALYTICS; ADMIN].

(** [x in xs] on a Python list of enum members, strings or integers. *)
Definition zone_in (z : SecurityZone) (zs : list SecurityZone) : bool :=
  existsb (fun z' => bool_decide (z = z')) zs.

Definition str_in (s : string) (ss : list string) : bool :=
  existsb (String.eqb s) ss.

Definition int_in (n : Z) (ns : list Z) : bool :=
  existsb (Z.eqb n) ns.

(** [@dataclass class NetworkPolicy] *)
Record NetworkPolicy : Type := mkPolicy {
  name : string;
  source_zone : SecurityZone;
  dest_zone : SecurityZone;
  allowed_protocols : list string;
  allowed_ports : list Z;
  action : string;
  priority : Z;
  enabled : bool
}.

(** [NetworkPolicy.matches] *)
Definition matches (self : NetworkPolicy) (src dst : SecurityZone)
    (protocol : string) (port : Z) : bool :=
  bool_decide (source_zone self = src) &&
  bool_decide (dest_zone self = dst) &&
  (str_in protocol (allowed_protocols self) || str_in "*" (allowed_protocols self)) &&
  (int_in port (allowed_ports self) || int_in 0 (allowed_ports self)).

(** One dictionary appended to [traffic_log]. *)
Record TrafficLogEntry : Type := mkLogEntry {
  log_src_device : string;
  log_dst_device : string;
  log_src_zone : string;
  log_dst_zone : string;
  log_protocol : string;
  log_port : Z;
  log_policy : string;
  log_action : string;
  log_allowed : bool
}.

(** The [metrics] dictionary of the manager: its four keys. *)
Record Metrics : Type := mkMetrics {
  packets_allowed : Z;
  packets_denied : Z;
  zone_violations : Z;
  lateral_movement_blocked : Z
}.

(** [class MicroSegmentationManager] *)
Record MicroSegmentationManager : Type := mkManager {
  device_zones : gmap string SecurityZone;
  policies : list NetworkPolicy;
  traffic_log : list TrafficLogEntry;
  metrics : Metrics
}.

(** *** Default policies *)

Definition management_policy (zone : SecurityZone) : NetworkPolicy :=
  mkPolicy ("management_to_" +:+ zone_value zone) MANAGEMENT zone
    ["ssh"; "https"] [22; 443] "allow" 90 true.

Definition lateral_deny_policy (src_zone dst_zone : SecurityZone) : NetworkPolicy :=
  mkPolicy ("deny_" +:+ zone_value src_zone +:+ "_to_" +:+ zone_value dst_zone)
    src_zone dst_zone ["*"] [0] "deny" 200 true.

Definition quarantine_deny_policy (zone : SecurityZone) : NetworkPolicy :=
  mkPolicy ("deny_quarantine_to_" +:+ zone_value zone) IOT_QUARANTINE zone
    ["*"] [0] "deny" 300 true.

(** [_initialize_default_policies], applied to the policy list it appends
    to. *)
Definition _initialize_default_policies (ps : list NetworkPolicy)
    : list NetworkPolicy :=
  ps
  ++ [ mkPolicy "iot_trusted_to_gateway" IOT_TRUSTED CLOUD_GATEWAY
         ["mqtt"; "coap"; "https"] [1883; 5683; 8883; 443] "allow" 100 true;
       mkPolicy "gateway_to_processing" CLOUD_GATEWAY DATA_PROCESSING
         ["https"; "grpc"] [443; 50051] "allow" 100 true;
       mkPolicy "processing_to_ai" DATA_PROCESSING AI_ANALYTICS
         ["https"; "grpc"] [443; 50051; 8080] "allow" 100 true;
       mkPolicy "ai_to_processing" AI_ANALYTICS DATA_PROCESSING
         ["https"] [443] "allow" 100 true ]
  ++ map management_policy
       (List.filter
          (fun zone => negb (zone_in zone [EXTERNAL; IOT_QUARANTINE]))
          all_zones)
  ++ [ mkPolicy "admin_to_management" ADMIN MANAGEMENT
         ["ssh"; "https"] [22; 443] "allow" 95 true ]
  ++ flat_map
       (fun src_zone =>
          flat_map
            (fun dst_zone =>
               if bool_decide (src_zone <> dst_zone)
               then [lateral_deny_policy src_zone dst_zone]
               else [])
            [IOT_TRUSTED; IOT_UNTRUSTED])
       [IOT_TRUSTED; IOT_UNTRUSTED]
  ++ map quarantine_deny_policy
       (List.filter (fun zone => bool_decide (zone <> IOT_QUARANTINE)) all_zones).

Definition default_policies : list NetworkPolicy := _initialize_default_policies [].

(** [MicroSegmentationManager.__init__] *)
Definition __init__ : MicroSegmentationManager :=
  mkManager ∅ default_policies [] (mkMetrics 0 0 0 0).

(** *** Zone assignment *)

Definition assign_device_zone (self : MicroSegmentationManager)
    (device_id : string) (zone : SecurityZone) : MicroSegmentationManager :=
  mkManager (<[device_id := zone]> (device_zones self))
    (policies self) (traffic_log self) (metrics self).

Definition get_device_zone (self : MicroSegmentationManager)
    (device_id : string) : option SecurityZone :=
  device_zones self !! device_id.

Definition quarantine_device (self : MicroSegmentationManager)
    (device_id : string) : MicroSegmentationManager :=
  mkManager (<[device_id := IOT_QUARANTINE]> (device_zones self))
    (policies self) (traffic_log self) (metrics self).

Definition restore_device (self : MicroSegmentationManager)
    (device_id : string) (zone : SecurityZone) : MicroSegmentationManager :=
  if bool_decide (device_zones self !! device_id = Some IOT_QUARANTINE)
  then mkManager (<[device_id := zone]> (device_zones self))
         (policies self) (traffic_log self) (metrics self)
  else self.

(** *** Policy set *)

Definition add_policy (self : MicroSegmentationManager)
    (policy : NetworkPolicy) : MicroSegmentationManager :=
  mkManager (device_zones self) (policies self ++ [policy])
    (traffic_log self) (metrics self).

Definition remove_policy (self : MicroSegmentationManager)
    (policy_name : string) : MicroSegmentationManager :=
  mkManager (device_zones self)
    (List.filter (fun p => negb (String.eqb (name p) policy_name)) (policies self))
    (traffic_log self) (metrics self).

(** *** Traffic evaluation *)

(** [sorted(ps, key=lambda x: x.priority, reverse=True)]: Python's sort is
    stable also under [reverse=True], so policies of equal priority keep the
    order they have in [ps].  [insert_by_priority p l] puts [p] in front of
    the first policy whose priority is not larger. *)
Fixpoint insert_by_priority (p : NetworkPolicy) (l : list NetworkPolicy)
    : list NetworkPolicy :=
  match l with
  | [] => [p]
  | q :: l' =>
      if priority q <=? priority p then p :: q :: l'
      else q :: insert_by_priority p l'
  end.

Definition sorted_by_priority (ps : list NetworkPolicy) : list NetworkPolicy :=
  foldr insert_by_priority [] ps.

(** Every policy of the list has at most the priority [n]. *)
Definition below (n : Z) (l : list NetworkPolicy) : Prop :=
  forall q, In q l -> priority q <= n.

(** A list in which no policy is followed by one of larger priority. *)
Inductive descending : list NetworkPolicy -> Prop :=
  | descending_nil : descending []
  | descending_cons p l :
      below (priority p) l -> descending l -> descending (p :: l).

(** The list comprehension of [evaluate_traffic]. *)
Definition matching_policies (self : MicroSegmentationManager)
    (src_zone dst_zone : SecurityZone) (protocol : string) (port : Z)
    : list NetworkPolicy :=
  List.filter
    (fun p => enabled p && matches p src_zone dst_zone protocol port)
    (sorted_by_priority (policies self)).

Definition is_iot_zone (z : SecurityZone) : bool :=
  zone_in z [IOT_TRUSTED; IOT_UNTRUSTED].

Definition with_metrics (self : MicroSegmentationManager) (m : Metrics)
    : MicroSegmentationManager :=
  mkManager (device_zones self) (policies self) (traffic_log self) m.

Definition incr_allowed (m : Metrics) : Metrics :=
  mkMetrics (packets_allowed m + 1) (packets_denied m)
    (zone_violations m) (lateral_movement_blocked m).

Definition incr_denied (m : Metrics) : Metrics :=
  mkMetrics (packets_allowed m) (packets_denied m + 1)
    (zone_violations m) (lateral_movement_blocked m).

Definition incr_zone_violations (m : Metrics) : Metrics :=
  mkMetrics (packets_allowed m) (packets_denied m)
    (zone_violations m + 1) (lateral_movement_blocked m).

Definition incr_lateral (m : Metrics) : Metrics :=
  mkMetrics (packets_allowed m) (packets_denied m)
    (zone_violations m) (lateral_movement_blocked m + 1).

(** [evaluate_traffic]: the verdict ([true] is allow) and the manager after
    the call.  A member of [SecurityZone] is truthy, so [not src_zone] holds
    exactly when the device has no assignment. *)
Definition evaluate_traffic (self : MicroSegmentationManager)
    (src_device dst_device : string) (protocol : string) (port : Z)
    : bool * MicroSegmentationManager :=
  match device_zones self !! src_device, device_zones self !! dst_device with
  | Some src_zone, Some dst_zone =>
      match matching_policies self src_zone dst_zone protocol port with
      | policy :: _ =>
          let allowed := String.eqb (action policy) "allow" in
          let m :=
            if allowed then incr_allowed (metrics self)
            else
              let m1 := incr_denied (metrics self) in
              if is_iot_zone src_zone && is_iot_zone dst_zone
              then incr_lateral m1 else m1 in
          let entry :=
            mkLogEntry src_device dst_device (zone_value src_zone)
              (zone_value dst_zone) protocol port (name policy)
              (action policy) allowed in
          (allowed,
           mkManager (device_zones self) (policies self)
             (traffic_log self ++ [entry]) m)
      | [] =>
          (false,
           with_metrics self (incr_zone_violations (incr_denied (metrics self))))
      end
  | _, _ =>
      (false, with_metrics self (incr_denied (metrics self)))
  end.

End MicroSegmentation.

(** ** Zero-trust authenticator *)

Module ZeroTrust.

(** A naive UTC [datetime] is the number of microseconds since the epoch,
    a [timedelta] a number of microseconds.  Every call of
    [datetime.utcnow()] in the source is an explicit argument of the
    embedded method, named after the place that reads the clock. *)
Definition datetime : Type := Z.
Definition timedelta : Type := Z.

Definition microseconds_per_second : Z := 1000000.

(** [timedelta(minutes=m)] *)
Definition minutes (m : Z) : timedelta := m * 60 * microseconds_per_second.

(** [int(d.timestamp())] *)
Definition timestamp_int (d : datetime) : Z := Z.quot d microseconds_per_second.

(** [(a - b).total_seconds()] *)
Definition total_seconds (a b : datetime) : Q :=
  Qmake (a - b) 1000000.

(** [trust_score] is a Python float.  The model computes with exact
    rationals: the constants 100.0, 70.0, 20.0 and 0.5 and the sums and
    differences of the first three are the same numbers in both; the decay
    rate 0.1 is taken as one tenth. *)
Abbreviation score := Q (only parsing).

(** [a >= b], [a > b] and [max(0, x)] on scores. *)
Definition score_ge (a b : score) : bool := Qle_bool b a.
Definition score_gt (a b : score) : bool := negb (Qle_bool a b).
Definition max0 (x : score) : score := if score_gt x 0%Q then x else 0%Q.

(** [@dataclass class AuthContext] *)
Record AuthContext : Type := mkContext {
  device_id : string;
  device_type : string;
  auth_method : string;
  auth_time : datetime;
  expires_at : datetime;
  trust_score : score;
  behavior_normal : bool;
  location_verified : bool;
  certificate_valid : bool
}.

(** [AuthContext.is_expired], with the clock reading [now]. *)
Definition is_expired (self : AuthContext) (now : datetime) : bool :=
  expires_at self <=? now.

(** [AuthContext.is_trusted] *)
Definition is_trusted (self : AuthContext) (min_trust_score : score)
    (now : datetime) : bool :=
  negb (is_expired self now) &&
  score_ge (trust_score self) min_trust_score &&
  behavior_normal self &&
  certificate_valid self.

(** The validity window of an X.509 certificate, the only part of it the
    authenticator reads. *)
Record Certificate : Type := mkCertificate {
  not_valid_before : datetime;
  not_valid_after : datetime
}.

(** The values a credential bundle carries. *)
Inductive PyValue : Type :=
  | PyNone
  | PyStr (s : string)
  | PyBytes (b : list Byte.byte).

(** Truthiness of a looked-up value: [None], the empty string and the empty
    byte string are falsy. *)
Definition truthy (v : option PyValue) : bool :=
  match v with
  | None | Some PyNone => false
  | Some (PyStr s) => negb (String.eqb s "")
  | Some (PyBytes b) => negb (bool_decide (b = []))
  end.

(** The claim set of an issued token. *)
Record TokenPayload : Type := mkPayload {
  claim_device_id : string;
  claim_device_type : string;
  claim_auth_method : string;
  claim_iat : Z;
  claim_exp : Z;
  claim_trust_score : score
}.

(** What [jwt.decode] does: return the claim set, or raise
    [ExpiredSignatureError], or raise another [InvalidTokenError] with a
    message. *)
Inductive JwtOutcome : Type :=
  | JwtDecoded (payload : TokenPayload)
  | JwtExpiredSignatureError
  | JwtInvalidTokenError (msg : string).

(** The [metrics] dictionary of the authenticator: its seven keys. *)
Record Metrics : Type := mkMetrics {
  auth_attempts : Z;
  auth_success : Z;
  auth_failures : Z;
  token_refreshes : Z;
  trust_violations : Z;
  mtls_verifications : Z;
  continuous_auth_checks : Z
}.

(** [class ZeroTrustAuthenticator] *)
Record ZeroTrustAuthenticator : Type := mkAuthenticator {
  jwt_secret : string;
  token_lifetime : timedelta;
  ca_cert : option Certificate;
  auth_contexts : gmap string AuthContext;
  trust_decay_rate : score;
  anomaly_penalty : score;
  metrics : Metrics
}.

(** [ZeroTrustAuthenticator.__init__].  [jwt_secret] is the secret in use
    (the one passed, or the random one drawn when none is passed);
    [ca_cert] is the certificate loaded from [ca_cert_path], [None] when no
    path is given. *)
Definition __init__ (jwt_secret : string) (token_lifetime_minutes : Z)
    (ca_cert : option Certificate) : ZeroTrustAuthenticator :=
  mkAuthenticator jwt_secret (minutes token_lifetime_minutes) ca_cert ∅
    (1 # 10)%Q 20%Q (mkMetrics 0 0 0 0 0 0 0).

Definition with_metrics (self : ZeroTrustAuthenticator) (m : Metrics)
    : ZeroTrustAuthenticator :=
  mkAuthenticator (jwt_secret self) (token_lifetime self) (ca_cert self)
    (auth_contexts self) (trust_decay_rate self) (anomaly_penalty self) m.

Definition with_contexts (self : ZeroTrustAuthenticator)
    (c : gmap string AuthContext) : ZeroTrustAuthenticator :=
  mkAuthenticator (jwt_secret self) (token_lifetime self) (ca_cert self)
    c (trust_decay_rate self) (anomaly_penalty self) (metrics self).

Definition incr_auth_attempts (m : Metrics) : Metrics :=
  mkMetrics (auth_attempts m + 1) (auth_success m) (auth_failures m)
    (token_refreshes m) (trust_violations m) (mtls_verifications m)
    (continuous_auth_checks m).

Definition incr_auth_success (m : Metrics) : Metrics :=
  mkMetrics (auth_attempts m) (auth_success m + 1) (auth_failures m)
    (token_refreshes m) (trust_violations m) (mtls_verifications m)
    (continuous_auth_checks m).

Definition incr_auth_failures (m : Metrics) : Metrics :=
  mkMetrics (auth_attempts m) (auth_success m) (auth_failures m + 1)
    (token_refreshes m) (trust_violations m) (mtls_verifications m)
    (continuous_auth_checks m).

Definition incr_token_refreshes (m : Metrics) : Metrics :=
  mkMetrics (auth_attempts m) (auth_success m) (auth_failures m)
    (token_refreshes m + 1) (trust_violations m) (mtls_verifications m)
    (continuous_auth_checks m).

Definition incr_trust_violations (m : Metrics) : Metrics :=
  mkMetrics (auth_attempts m) (auth_success m) (auth_failures m)
    (token_refreshes m) (trust_violations m + 1) (mtls_verifications m)
    (continuous_auth_checks m).

Definition incr_mtls_verifications (m : Metrics) : Metrics :=
  mkMetrics (auth_attempts m) (auth_success m) (auth_failures m)
    (token_refreshes m) (trust_violations m) (mtls_verifications m + 1)
    (continuous_auth_checks m).

Definition incr_continuous_auth_checks (m : Metrics) : Metrics :=
  mkMetrics (auth_attempts m) (auth_success m) (auth_failures m)
    (token_refreshes m) (trust_violations m) (mtls_verifications m)
    (continuous_auth_checks m + 1).

(** In-place updates of a context object. *)
Definition set_trust (c : AuthContext) (t : score) (normal : bool) : AuthContext :=
  mkContext (device_id c) (device_type c) (auth_method c) (auth_time c)
    (expires_at c) t normal (location_verified c) (certificate_valid c).

Definition set_times (c : AuthContext) (t e : datetime) : AuthContext :=
  mkContext (device_id c) (device_type c) (auth_method c) t e
    (trust_score c) (behavior_normal c) (location_verified c)
    (certificate_valid c).

Section Methods.

(** The libraries the authenticator calls.  [Token] is what [jwt.encode]
    returns; [jwt_decode token key now] is the outcome of [jwt.decode] run at
    time [now]; [load_pem_x509_certificate] returns [None] where the library
    raises. *)
Context {Token : Type}.
Variable jwt_encode : TokenPayload -> string -> Token.
Variable jwt_decode : Token -> string -> datetime -> JwtOutcome.
Variable load_pem_x509_certificate : list Byte.byte -> option Certificate.

(** [_verify_jwt_credentials] *)
Definition _verify_jwt_credentials (device_id : string)
    (credentials : gmap string PyValue) : bool :=
  bool_decide (is_Some (credentials !! "device_key")).

(** [_verify_mtls_certificate]: its verdict and the authenticator after the
    call.  An exception of the certificate loader (also the one it raises on
    a value that is not a byte string) is caught and gives [false]. *)
Definition _verify_mtls_certificate (self : ZeroTrustAuthenticator)
    (cert_pem : option PyValue) (now : datetime) : bool * ZeroTrustAuthenticator :=
  if negb (truthy cert_pem) || negb (bool_decide (is_Some (ca_cert self)))
  then (false, self)
  else
    let self1 := with_metrics self (incr_mtls_verifications (metrics self)) in
    match cert_pem with
    | Some (PyBytes b) =>
        match load_pem_x509_certificate b with
        | Some device_cert =>
            if (now <? not_valid_before device_cert)
               || (not_valid_after device_cert <? now)
            then (false, self1)
            else (true, self1)
        | None => (false, self1)
        end
    | _ => (false, self1)
    end.

(** [_verify_oauth_token] *)
Definition _verify_oauth_token (token : option PyValue) : bool :=
  match token with
  | Some (PyStr s) => 0 <? Z.of_nat (String.length s)
  | Some (PyBytes b) => 0 <? Z.of_nat (length b)
  | _ => false
  end.

(** [authenticate_device]: the token ([None] on failure) and the
    authenticator after the call.  [now_cert] is the clock read by the
    certificate check, [now_auth] the one that becomes [auth_time].  An
    exception raised by a verifier ends in the same failure branch as a
    negative verdict; [jwt.encode] is taken to return on every claim set. *)
Definition authenticate_device (self : ZeroTrustAuthenticator)
    (device_id device_type : string) (credentials : gmap string PyValue)
    (method : string) (now_cert now_auth : datetime)
    : option Token * ZeroTrustAuthenticator :=
  let self0 := with_metrics self (incr_auth_attempts (metrics self)) in
  let verdict : option (bool * ZeroTrustAuthenticator) :=
    if String.eqb method "jwt"
    then Some (_verify_jwt_credentials device_id credentials, self0)
    else if String.eqb method "mtls"
    then Some (_verify_mtls_certificate self0 (credentials !! "certificate") now_cert)
    else if String.eqb method "oauth"
    then Some (_verify_oauth_token (credentials !! "token"), self0)
    else None in
  match verdict with
  | None => (None, with_metrics self0 (incr_auth_failures (metrics self0)))
  | Some (false, self1) =>
      (None, with_metrics self1 (incr_auth_failures (metrics self1)))
  | Some (true, self1) =>
      let auth_time := now_auth in
      let auth_context :=
        mkContext device_id device_type method auth_time
          (auth_time + token_lifetime self1) 100%Q true true true in
      let self2 :=
        with_contexts self1 (<[device_id := auth_context]> (auth_contexts self1)) in
      let token_payload :=
        mkPayload device_id device_type method (timestamp_int auth_time)
          (timestamp_int (auth_time + token_lifetime self2))
          (trust_score auth_context) in
      let token := jwt_encode token_payload (jwt_secret self2) in
      (Some token, with_metrics self2 (incr_auth_success (metrics self2)))
  end.

(** [verify_token]: the returned value and the warnings logged. *)
Definition verify_token (self : ZeroTrustAuthenticator) (token : Token) (now : datetime)
    : option TokenPayload * list string :=
  match jwt_decode token (jwt_secret self) now with
  | JwtDecoded payload => (Some payload, [])
  | JwtExpiredSignatureError => (None, ["Token expired"])
  | JwtInvalidTokenError msg => (None, ["Invalid token: " +:+ msg])
  end.

(** [continuous_authentication_check].  [behavior_data] maps a key to the
    number stored under it.  [now_guard] is the clock read by the expiry
    guard, [now_decay] the one read by the decay branch, [now_trust] the one
    read by the final [is_trusted]. *)
Definition continuous_authentication_check (self : ZeroTrustAuthenticator)
    (device_id : string) (behavior_data : gmap string Q)
    (now_guard now_decay now_trust : datetime) : bool * ZeroTrustAuthenticator :=
  let self0 := with_metrics self (incr_continuous_auth_checks (metrics self)) in
  match auth_contexts self0 !! device_id with
  | None => (false, self0)
  | Some context =>
      if is_expired context now_guard then (false, self0)
      else
        let anomaly_detected :=
          score_gt (default 0%Q (behavior_data !! "anomaly_score")) (1 # 2)%Q in
        let context1 :=
          if anomaly_detected
          then set_trust context
                 (trust_score context - anomaly_penalty self0)%Q false
          else
            let time_since_auth := total_seconds now_decay (auth_time context) in
            let decay := (trust_decay_rate self0 * (time_since_auth / 60))%Q in
            set_trust context (max0 (trust_score context - decay)%Q)
              (behavior_normal context) in
        let self1 :=
          with_contexts self0 (<[device_id := context1]> (auth_contexts self0)) in
        let trusted := is_trusted context1 70%Q now_trust in
        if trusted then (true, self1)
        else (false, with_metrics self1 (incr_trust_violations (metrics self1)))
  end.

(** [refresh_token].  [now_trust] is the clock read by [is_trusted],
    [now_auth] the one that becomes the new [auth_time]. *)
Definition refresh_token (self : ZeroTrustAuthenticator) (device_id : string)
    (now_trust now_auth : datetime) : option Token * ZeroTrustAuthenticator :=
  match auth_contexts self !! device_id with
  | None => (None, self)
  | Some context =>
      if negb (is_trusted context 70%Q now_trust) then (None, self)
      else
        let auth_time := now_auth in
        let context1 := set_times context auth_time (auth_time + token_lifetime self) in
        let self1 :=
          with_contexts self (<[device_id := context1]> (auth_contexts self)) in
        let token_payload :=
          mkPayload device_id (device_type context1) (auth_method context1)
            (timestamp_int auth_time) (timestamp_int (expires_at context1))
            (trust_score context1) in
        let token := jwt_encode token_payload (jwt_secret self1) in
        (Some token, with_metrics self1 (incr_token_refreshes (metrics self1)))
  end.

(** [revoke_authentication] *)
Definition revoke_authentication (self : ZeroTrustAuthenticator) (device_id : string)
    : ZeroTrustAuthenticator :=
  with_contexts self (delete device_id (auth_contexts self)).

(** [get_trust_score] *)
Definition get_trust_score (self : ZeroTrustAuthenticator) (device_id : string)
    : option score :=
  trust_score <$> (auth_contexts self !! device_id).

End Methods.

End ZeroTrust.

(** ** A symbolic token codec

    The authenticator is parametric in the JWT and X.509 libraries.  To run
    it on concrete inputs the examples below use this stand-in: a token is the
    claim set together with the key that signed it; decoding rejects a token
    signed with another key, then one whose [exp] claim has passed. *)

Module SymbolicJwt.

Import ZeroTrust.

Record SignedToken : Type := mkSigned {
  signed_payload : TokenPayload;
  signing_key : string
}.

Definition encode (payload : TokenPayload) (key : string) : SignedToken :=
  mkSigned payload key.

Definition decode (token : SignedToken) (key : string) (now : datetime)
    : JwtOutcome :=
  if negb (String.eqb (signing_key token) key)
  then JwtInvalidTokenError "Signature verification failed"
  else if claim_exp (signed_payload token) <=? timestamp_int now
  then JwtExpiredSignatureError
  else JwtDecoded (signed_payload token).

(** A certificate loader that reads every byte string as a certificate valid
    from the epoch for 10^15 microseconds. *)
Definition load_pem (b : list Byte.byte) : option Certificate :=
  Some (mkCertificate 0 1000000000000000).

End SymbolicJwt.

(** ** Concrete managers used by the examples *)

Module Examples.

Import MicroSegmentation.

(** Three devices of the design document's examples, on the default
    policies. *)
Definition plant : MicroSegmentationManager :=
  assign_device_zone
    (assign_device_zone
       (assign_device_zone
          (assign_device_zone __init__ "cam_01" IOT_TRUSTED)
          "cam_02" IOT_TRUSTED)
       "gw" CLOUD_GATEWAY)
    "plug_02" IOT_UNTRUSTED.

(** A permissive rule out of quarantine, just below the isolation rules. *)
Definition quarantine_escape : NetworkPolicy :=
  mkPolicy "quarantine_to_gateway" IOT_QUARANTINE CLOUD_GATEWAY
    ["*"] [0] "allow" 299 true.

Definition plant_with_escape : MicroSegmentationManager :=
  quarantine_device (add_policy plant quarantine_escape) "cam_01".

End Examples.

(** ** Concrete authenticators used by the examples *)

Module AuthExamples.

Import ZeroTrust.

(** An authenticator with the default five-minute lifetime and no CA
    certificate. *)
Definition fresh : ZeroTrustAuthenticator := __init__ "s3cret" 5 None.

Definition key_bundle : gmap string PyValue :=
  {[ "device_key" := PyStr "cam-key" ]}.

Definition cert_bundle : gmap string PyValue :=
  {[ "certificate" := PyBytes [Byte.x2d; Byte.x2d] ]}.

(** [authenticate_device("cam_01", "camera", {"device_key": ...})] at time
    [now]. *)
Definition login (self : ZeroTrustAuthenticator) (now : datetime)
    : option SymbolicJwt.SignedToken * ZeroTrustAuthenticator :=
  authenticate_device SymbolicJwt.encode SymbolicJwt.load_pem
    self "cam_01" "camera" key_bundle "jwt" now now.

Definition anomalous : gmap string Q := {[ "anomaly_score" := (9 # 10)%Q ]}.
Definition quiet : gmap string Q := {[ "anomaly_score" := (1 # 10)%Q ]}.

(** One continuous check of "cam_01" whose three clock readings are
    [now]. *)
Definition check (self : ZeroTrustAuthenticator) (behavior_data : gmap string Q)
    (now : datetime) : bool * ZeroTrustAuthenticator :=
  continuous_authentication_check self "cam_01" behavior_data now now now.

(** [k] anomalous checks in a row, all at time [now]. *)
Fixpoint anomalous_checks (k : nat) (self : ZeroTrustAuthenticator) (now : datetime)
    : ZeroTrustAuthenticator :=
  match k with
  | O => self
  | S k' => anomalous_checks k' (snd (check self anomalous now)) now
  end.

(** The session of "cam_01" opened at time 0; it expires at 300 s. *)
Definition session : ZeroTrustAuthenticator := snd (login fresh 0).

Definition one_second : datetime := 1000000.
Definition six_minutes : datetime := 360000000.

(** The token issued for that session, and the same claims signed with
    another key. *)
Definition issued : SymbolicJwt.SignedToken :=
  SymbolicJwt.mkSigned
    (mkPayload "cam_01" "camera" "jwt" 0 300 100%Q) "s3cret".

Definition forged : SymbolicJwt.SignedToken :=
  SymbolicJwt.mkSigned
    (mkPayload "cam_01" "camera" "jwt" 0 300 100%Q) "not-the-secret".

End AuthExamples.

(** ** Reports and call sequences *)

Module Reports.

Import MicroSegmentation.

(** [get_zone_devices].  The source lists the devices in the insertion order
    of the dictionary; the model lists them in the order of the finite map,
    so only the members and the length of the list are meaningful. *)
Definition get_zone_devices (self : MicroSegmentationManager)
    (zone : SecurityZone) : list string :=
  map fst
    (List.filter (fun dz => bool_decide (snd dz = zone))
       (map_to_list (device_zones self))).

(** The dictionary returned by [get_metrics]: the four counters, the number
    of devices, the number of devices per zone (keyed by [zone.value], in
    definition order) and the share of denials that were lateral movement.
    The quotient is a float in the source and an exact rational here. *)
Record MetricsReport : Type := mkReport {
  report_counters : Metrics;
  total_devices : Z;
  zones : list (string * Z);
  lateral_movement_reduction_pct : Q
}.

(** [get_metrics] *)
Definition get_metrics (self : MicroSegmentationManager) : MetricsReport :=
  mkReport (metrics self)
    (Z.of_nat (size (device_zones self)))
    (map (fun zone =>
            (zone_value zone, Z.of_nat (length (get_zone_devices self zone))))
       all_zones)
    (Qmake (100 * lateral_movement_blocked (metrics self))
       (Z.to_pos (Z.max 1 (packets_denied (metrics self))))).

(** One call of a public method of the manager. *)
Inductive Call : Type :=
  | CallAssign (device_id : string) (zone : SecurityZone)
  | CallQuarantine (device_id : string)
  | CallRestore (device_id : string) (zone : SecurityZone)
  | CallAddPolicy (policy : NetworkPolicy)
  | CallRemovePolicy (policy_name : string)
  | CallEvaluate (src_device dst_device protocol : string) (port : Z).

Definition call (self : MicroSegmentationManager) (c : Call)
    : MicroSegmentationManager :=
  match c with
  | CallAssign d z => assign_device_zone self d z
  | CallQuarantine d => quarantine_device self d
  | CallRestore d z => restore_device self d z
  | CallAddPolicy p => add_policy self p
  | CallRemovePolicy n => remove_policy self n
  | CallEvaluate s d protocol port => snd (evaluate_traffic self s d protocol port)
  end.

(** The manager after a sequence of calls. *)
Definition calls (self : MicroSegmentationManager) (cs : list Call)
    : MicroSegmentationManager :=
  foldl call self cs.

(** The policy [evaluate_traffic] decides with, if any. *)
Definition selected_policy (self : MicroSegmentationManager)
    (src_zone dst_zone : SecurityZone) (protocol : string) (port : Z)
    : option NetworkPolicy :=
  head (matching_policies self src_zone dst_zone protocol port).

(** The manager with its disabled policies dropped. *)
Definition without_disabled (self : MicroSegmentationManager)
    : MicroSegmentationManager :=
  mkManager (device_zones self) (List.filter enabled (policies self))
    (traffic_log self) (metrics self).

(** The first default policy, for the telemetry upload. *)
Definition telemetry_policy : NetworkPolicy :=
  mkPolicy "iot_trusted_to_gateway" IOT_TRUSTED CLOUD_GATEWAY
    ["mqtt"; "coap"; "https"] [1883; 5683; 8883; 443] "allow" 100 true.

(** The relations between the counters and the traffic log that every call
    keeps. *)
Definition accounted (st : MicroSegmentationManager) : Prop :=
  0 <= packets_allowed (metrics st) /\
  0 <= zone_violations (metrics st) /\
  0 <= lateral_movement_blocked (metrics st) /\
  zone_violations (metrics st) + lateral_movement_blocked (metrics st)
    <= packets_denied (metrics st) /\
  packets_allowed (metrics st) + lateral_movement_blocked (metrics st)
    <= Z.of_nat (length (traffic_log st)) /\
  Z.of_nat (length (traffic_log st)) + zone_violations (metrics st)
    <= packets_allowed (metrics st) + packets_denied (metrics st).

End Reports.

Module AuthReports.

Import ZeroTrust.

(** One continuous check or token refresh of a device, with the clock
    readings of the call. *)
Inductive SessionCall : Type :=
  | CallCheck (behavior_data : gmap string Q)
      (now_guard now_decay now_trust : datetime)
  | CallRefresh (now_trust now_auth : datetime).

Section Calls.

Context {Token : Type}.
Variable jwt_encode : TokenPayload -> string -> Token.

(** The verdict of the call ([true]: the device is reported trusted, or a
    token is returned) and the authenticator after it. *)
Definition session_call (device_id : string) (self : ZeroTrustAuthenticator)
    (c : SessionCall) : bool * ZeroTrustAuthenticator :=
  match c with
  | CallCheck behavior_data now_guard now_decay now_trust =>
      continuous_authentication_check self device_id behavior_data
        now_guard now_decay now_trust
  | CallRefresh now_trust now_auth =>
      let r := refresh_token jwt_encode self device_id now_trust now_auth in
      (bool_decide (is_Some (fst r)), snd r)
  end.

(** The verdicts of a sequence of calls and the authenticator after them. *)
Fixpoint session_calls (device_id : string) (self : ZeroTrustAuthenticator)
    (cs : list SessionCall) : list bool * ZeroTrustAuthenticator :=
  match cs with
  | [] => ([], self)
  | c :: cs' =>
      let r := session_call device_id self c in
      let rs := session_calls device_id (snd r) cs' in
      (fst r :: fst rs, snd rs)
  end.

End Calls.

(** The call reads the clock, for its expiry test, at [t] or later. *)
Definition reads_after (t : datetime) (c : SessionCall) : Prop :=
  match c with
  | CallCheck _ now_guard _ _ => t <= now_guard
  | CallRefresh now_trust _ => t <= now_trust
  end.

Section Codec.

Context {Token : Type}.
Variable jwt_encode : TokenPayload -> string -> Token.
Variable jwt_decode : Token -> string -> datetime -> JwtOutcome.

(** What the callers rely on in the JWT library: a claim set encoded under a
    key decodes to itself under that key before its [exp] claim. *)
Definition codec_round_trip : Prop :=
  forall payload key now,
    timestamp_int now < claim_exp payload ->
    jwt_decode (jwt_encode payload key) key now = JwtDecoded payload.

End Codec.

End AuthReports.

(** ** The security set-up of the experiment driver *)

Module Experiment.

Import MicroSegmentation ZeroTrust.

(** What [setup_security] reads and writes of a device object. *)
Record IoTDevice (Token : Type) : Type := mkDevice {
  device_id : string;
  device_type : string;
  auth_token : option Token
}.

Arguments mkDevice {Token}.
Arguments device_id {Token}.
Arguments device_type {Token}.
Arguments auth_token {Token}.

(** [sub in s] on strings. *)
Fixpoint contains (sub s : string) : bool :=
  String.prefix sub s ||
  match s with
  | EmptyString => false
  | String _ s' => contains sub s'
  end.

(** The zone the driver picks for a device. *)
Definition zone_of_device_id (device_id : string) : SecurityZone :=
  if contains "camera" device_id || contains "sensor" device_id
  then IOT_TRUSTED else IOT_UNTRUSTED.

Definition mock_credentials : gmap string PyValue :=
  {[ "device_key" := PyStr "mock_key" ]}.

Section Setup.

Context {Token : Type}.
Variable jwt_encode : TokenPayload -> string -> Token.
Variable load_pem_x509_certificate : list Byte.byte -> option Certificate.

(** The segmentation branch of [setup_security]: a new manager with every
    device assigned by its identifier. *)
Definition setup_segmentation (devices : list (IoTDevice Token))
    : MicroSegmentationManager :=
  foldl (fun segmentation device =>
           assign_device_zone segmentation (device_id device)
             (zone_of_device_id (device_id device)))
    MicroSegmentation.__init__ devices.

(** The loop of the zero-trust branch: each device is authenticated with
    the mock key and keeps the token it gets.  [clock i] is the clock
    reading of the authentication number [i]. *)
Fixpoint authenticate_all (zero_trust : ZeroTrustAuthenticator)
    (clock : nat -> datetime) (i : nat) (devices : list (IoTDevice Token))
    : ZeroTrustAuthenticator * list (IoTDevice Token) :=
  match devices with
  | [] => (zero_trust, [])
  | device :: devices' =>
      let r :=
        authenticate_device jwt_encode load_pem_x509_certificate zero_trust
          (device_id device) (device_type device) mock_credentials "jwt"
          (clock i) (clock i) in
      let rest := authenticate_all (snd r) clock (S i) devices' in
      (fst rest,
       mkDevice (device_id device) (device_type device) (fst r) :: snd rest)
  end.

(** [setup_security].  The two flags and the lifetime are the entries of the
    configuration it reads; [jwt_secret] is the random secret the
    authenticator draws. *)
Definition setup_security (enable_micro_segmentation enable_zero_trust : bool)
    (jwt_token_lifetime_minutes : Z) (jwt_secret : string)
    (clock : nat -> datetime) (devices : list (IoTDevice Token))
    : option MicroSegmentationManager * option ZeroTrustAuthenticator
      * list (IoTDevice Token) :=
  let segmentation :=
    if enable_micro_segmentation then Some (setup_segmentation devices)
    else None in
  if enable_zero_trust
  then
    let r :=
      authenticate_all
        (ZeroTrust.__init__ jwt_secret jwt_token_lifetime_minutes None)
        clock 0%nat devices in
    (segmentation, Some (fst r), snd r)
  else (segmentation, None, devices).

End Setup.

(** The devices of a small experiment. *)
Definition fleet : list (IoTDevice SymbolicJwt.SignedToken) :=
  [ mkDevice "camera_000" "smart_camera" None;
    mkDevice "plug_000" "smart_plug" None;
    mkDevice "thermostat_000" "thermostat" None;
    mkDevice "sensor_000" "industrial_sensor" None ].

End Experiment.

(** ** Further concrete states *)

Module MoreExamples.

Import MicroSegmentation ZeroTrust.

(** Two rules of equal priority for the same zone pair, the permissive one
    added first. *)
Definition dmz_allow : NetworkPolicy :=
  mkPolicy "dmz_ingress" DMZ CLOUD_GATEWAY ["https"] [443] "allow" 150 true.

Definition dmz_deny : NetworkPolicy :=
  mkPolicy "dmz_block" DMZ CLOUD_GATEWAY ["*"] [0] "deny" 150 true.

Definition tied : MicroSegmentationManager :=
  add_policy (add_policy Examples.plant dmz_allow) dmz_deny.

(** A second device with a session of its own, opened one second after the
    session of "cam_01". *)
Definition two_sessions : ZeroTrustAuthenticator :=
  snd (authenticate_device SymbolicJwt.encode SymbolicJwt.load_pem
         AuthExamples.session "plug_02" "smart_plug"
         {[ "token" := PyStr "oauth-token" ]} "oauth"
         AuthExamples.one_second AuthExamples.one_second).

Definition one_minute : datetime := 60000000.
Definition two_minutes : datetime := 120000000.

End MoreExamples.

(** ** Properties of the micro-segmentation manager *)

Module SegmentationProperties.

Import MicroSegmentation.

(** *** The priority sort *)

Lemma insert_by_priority_In p q l :
  In q (insert_by_priority p l) <-> q = p \/ In q l.
Proof.
  induction l as [|a l IH]; simpl.
  - intuition.
  - destruct (priority a <=? priority p); simpl; rewrite ?IH; intuition.
Qed.

Lemma sorted_by_priority_In q l :
  In q (sorted_by_priority l) <-> In q l.
Proof.
  induction l as [|a l IH]; simpl; [reflexivity|].
  rewrite insert_by_priority_In, IH. intuition.
Qed.

Lemma insert_by_priority_descending p l :
  descending l -> descending (insert_by_priority p l).
Proof.
  induction 1 as [|a l Ha Hl IH]; simpl.
  - constructor; [intros q []|constructor].
  - destruct (Z.leb_spec (priority a) (priority p)) as [Hle|Hgt].
    + constructor; [|constructor; assumption].
      intros q [<-|Hq]; [assumption|].
      specialize (Ha q Hq). lia.
    + constructor; [|assumption].
      intros q Hq. apply insert_by_priority_In in Hq as [->|Hq]; [lia|auto].
Qed.

Lemma sorted_by_priority_descending l : descending (sorted_by_priority l).
Proof.
  induction l; simpl; [constructor|].
  now apply insert_by_priority_descending.
Qed.

(** The first policy that passes a filter over a descending list has the
    largest priority among those that pass it. *)
Lemma first_match_is_strongest (f : NetworkPolicy -> bool) l p rest :
  descending l ->
  List.filter f l = p :: rest ->
  In p l /\ f p = true /\ forall q, In q l -> f q = true -> priority q <= priority p.
Proof.
  induction 1 as [|a l Ha Hl IH]; simpl; [discriminate|].
  destruct (f a) eqn:Hfa.
  - intros [= -> _]. split; [now left|]. split; [assumption|].
    intros q [<-|Hq] _; [lia|auto].
  - intros Hf. destruct (IH Hf) as (Hin & Hp & Hmax).
    split; [now right|]. split; [assumption|].
    intros q [<-|Hq] Hq'; [congruence|auto].
Qed.

(** A filter that some policy of the list passes selects something. *)
Lemma filter_nonempty (f : NetworkPolicy -> bool) l q :
  In q l -> f q = true -> exists p rest, List.filter f l = p :: rest.
Proof.
  intros Hq Hf.
  destruct (List.filter f l) as [|p rest] eqn:E; [|eauto].
  assert (In q (List.filter f l)) as Hin by (apply filter_In; auto).
  rewrite E in Hin. destruct Hin.
Qed.

(** What [evaluate_traffic] selects: an enabled matching policy of the
    policy set such that no enabled matching policy has a larger priority. *)
Lemma matching_policies_head st sz dz protocol port p rest :
  matching_policies st sz dz protocol port = p :: rest ->
  In p (policies st) /\
  enabled p = true /\
  matches p sz dz protocol port = true /\
  forall q, In q (policies st) -> enabled q = true ->
            matches q sz dz protocol port = true -> priority q <= priority p.
Proof.
  unfold matching_policies. intros E.
  apply first_match_is_strongest in E as (Hin & Hp & Hmax);
    [|apply sorted_by_priority_descending].
  apply (proj1 (sorted_by_priority_In _ _)) in Hin.
  apply andb_true_iff in Hp as [He Hm].
  split; [assumption|]. split; [assumption|]. split; [assumption|].
  intros q Hq Heq Hmq. apply Hmax.
  - now apply sorted_by_priority_In.
  - now rewrite Heq, Hmq.
Qed.

(** *** The default policy set *)

Lemma quarantine_deny_policy_default z :
  z <> IOT_QUARANTINE -> In (quarantine_deny_policy z) default_policies.
Proof.
  intros Hz. unfold default_policies, _initialize_default_policies.
  rewrite !in_app_iff. do 5 right.
  apply in_map, filter_In. split.
  - destruct z; simpl; tauto.
  - now apply bool_decide_eq_true.
Qed.

Lemma quarantine_deny_policy_matches z protocol port :
  matches (quarantine_deny_policy z) IOT_QUARANTINE z protocol port = true.
Proof.
  unfold matches. simpl.
  rewrite !bool_decide_eq_true_2 by reflexivity.
  simpl. now rewrite !orb_true_r.
Qed.

(** The only default policies of priority 300 or more are denials. *)
Lemma default_policies_top_deny p :
  In p default_policies -> 300 <= priority p -> action p = "deny".
Proof.
  intros Hin. vm_compute in Hin.
  repeat (destruct Hin as [<-|Hin]; [simpl; intros; (lia || reflexivity)|]).
  destruct Hin.
Qed.

Lemma policies_add_policies st extras :
  policies (foldl add_policy st extras) = (policies st ++ extras)%list.
Proof.
  revert st. induction extras as [|p extras IH]; intros st; simpl.
  - now rewrite app_nil_r.
  - rewrite IH. simpl. now rewrite <- app_assoc.
Qed.

(** C1: under the default policies, extended by any number of [add_policy]
    calls with allow policies of priority below 300, a flow from a device of
    the zone [iot_quarantine] to a device of any other zone is denied,
    whatever the protocol and the port. *)
Theorem quarantine_isolation
    (st0 st : MicroSegmentationManager) (extras : list NetworkPolicy)
    (src dst : string) (z : SecurityZone) (protocol : string) (port : Z) :
  policies st0 = default_policies ->
  Forall (fun p => action p = "allow" /\ priority p < 300) extras ->
  policies st = policies (foldl add_policy st0 extras) ->
  device_zones st !! src = Some IOT_QUARANTINE ->
  device_zones st !! dst = Some z ->
  z <> IOT_QUARANTINE ->
  fst (evaluate_traffic st src dst protocol port) = false.
Proof.
  intros Hdef Hextras Hpol Hsrc Hdst Hz.
  rewrite policies_add_policies, Hdef in Hpol.
  unfold evaluate_traffic. rewrite Hsrc, Hdst.
  destruct (matching_policies st IOT_QUARANTINE z protocol port)
    as [|p rest] eqn:E; [reflexivity|].
  apply matching_policies_head in E as (Hin & _ & _ & Hmax).
  assert (300 <= priority p) as Hprio.
  { apply (Hmax (quarantine_deny_policy z)).
    - rewrite Hpol. apply in_app_iff. left.
      now apply quarantine_deny_policy_default.
    - reflexivity.
    - apply quarantine_deny_policy_matches. }
  rewrite Hpol in Hin. apply in_app_iff in Hin as [Hin|Hin].
  - simpl. now rewrite (default_policies_top_deny p Hin Hprio).
  - rewrite Forall_forall in Hextras.
    apply list_elem_of_In in Hin.
    destruct (Hextras p Hin) as [_ Hlt]. lia.
Qed.

Lemma quarantine_isolation_witness :
  device_zones Examples.plant_with_escape !! "cam_01" = Some IOT_QUARANTINE /\
  In Examples.quarantine_escape (policies Examples.plant_with_escape) /\
  fst (evaluate_traffic Examples.plant_with_escape "cam_01" "gw" "https" 443) = false.
Proof.
  split; [reflexivity|]. split; [vm_compute; tauto|].
  apply (quarantine_isolation __init__ Examples.plant_with_escape
           [Examples.quarantine_escape] "cam_01" "gw" CLOUD_GATEWAY).
  - reflexivity.
  - constructor; [split; [reflexivity|simpl; lia]|constructor].
  - reflexivity.
  - reflexivity.
  - reflexivity.
  - discriminate.
Defined.

(** *** Unresolved zones *)

(** C2, as stated, fails: a flow with an unassigned endpoint increments
    [packets_denied], the counter of policy denials. *)
Lemma unresolved_zone_hits_packets_denied :
  device_zones Examples.plant !! "ghost" = None /\
  fst (evaluate_traffic Examples.plant "ghost" "gw" "mqtt" 1883) = false /\
  packets_denied (metrics (snd (evaluate_traffic Examples.plant "ghost" "gw" "mqtt" 1883)))
    <> packets_denied (metrics Examples.plant).
Proof. split; [reflexivity|]. split; [reflexivity|]. vm_compute. discriminate. Qed.

Lemma evaluate_traffic_unresolved st src dst protocol port :
  device_zones st !! src = None \/ device_zones st !! dst = None ->
  evaluate_traffic st src dst protocol port
  = (false, with_metrics st (incr_denied (metrics st))).
Proof.
  unfold evaluate_traffic. intros [H|H]; rewrite H; [reflexivity|].
  now destruct (device_zones st !! src).
Qed.

(** C2, amended: a flow with an unassigned endpoint is denied; the call adds
    one to [packets_denied] and changes nothing else: the other three
    counters, the traffic log, the zone assignments and the policies stay as
    they are. *)
Theorem unresolved_zone_denied
    (st : MicroSegmentationManager) (src dst protocol : string) (port : Z) :
  device_zones st !! src = None \/ device_zones st !! dst = None ->
  fst (evaluate_traffic st src dst protocol port) = false /\
  packets_denied (metrics (snd (evaluate_traffic st src dst protocol port)))
    = packets_denied (metrics st) + 1 /\
  packets_allowed (metrics (snd (evaluate_traffic st src dst protocol port)))
    = packets_allowed (metrics st) /\
  zone_violations (metrics (snd (evaluate_traffic st src dst protocol port)))
    = zone_violations (metrics st) /\
  lateral_movement_blocked (metrics (snd (evaluate_traffic st src dst protocol port)))
    = lateral_movement_blocked (metrics st) /\
  traffic_log (snd (evaluate_traffic st src dst protocol port)) = traffic_log st /\
  device_zones (snd (evaluate_traffic st src dst protocol port)) = device_zones st /\
  policies (snd (evaluate_traffic st src dst protocol port)) = policies st.
Proof.
  intros H. rewrite (evaluate_traffic_unresolved _ _ _ _ _ H). simpl.
  repeat split; reflexivity.
Qed.

Lemma unresolved_zone_denied_witness :
  fst (evaluate_traffic Examples.plant "cam_01" "ghost" "mqtt" 1883) = false /\
  packets_denied (metrics (snd (evaluate_traffic Examples.plant "cam_01" "ghost" "mqtt" 1883)))
    = 1.
Proof.
  destruct (unresolved_zone_denied Examples.plant "cam_01" "ghost" "mqtt" 1883)
    as (Hv & Hd & _).
  - right. reflexivity.
  - split; [exact Hv | exact Hd].
Defined.

(** *** Lateral movement *)

(** C5, as stated, fails: two devices of the zone [iot_trusted] match no
    default policy; the flow is denied on the default-deny path and
    [lateral_movement_blocked] stays as it is. *)
Lemma default_deny_not_counted_as_lateral :
  device_zones Examples.plant !! "cam_01" = Some IOT_TRUSTED /\
  device_zones Examples.plant !! "cam_02" = Some IOT_TRUSTED /\
  fst (evaluate_traffic Examples.plant "cam_01" "cam_02" "mqtt" 1883) = false /\
  lateral_movement_blocked
    (metrics (snd (evaluate_traffic Examples.plant "cam_01" "cam_02" "mqtt" 1883)))
  = lateral_movement_blocked (metrics Examples.plant).
Proof. repeat split; reflexivity. Qed.

(** C5, amended: when a flow between two devices whose zones are both in
    {iot_trusted, iot_untrusted} is denied by a matching policy,
    [lateral_movement_blocked] increases by exactly 1; when it is denied
    because no policy matches, [lateral_movement_blocked] does not change
    and [zone_violations] increases by 1. *)
Theorem lateral_movement_counted
    (st : MicroSegmentationManager) (src dst : string) (sz dz : SecurityZone)
    (protocol : string) (port : Z) :
  device_zones st !! src = Some sz ->
  device_zones st !! dst = Some dz ->
  is_iot_zone sz = true ->
  is_iot_zone dz = true ->
  fst (evaluate_traffic st src dst protocol port) = false ->
  (matching_policies st sz dz protocol port <> [] ->
   lateral_movement_blocked (metrics (snd (evaluate_traffic st src dst protocol port)))
   = lateral_movement_blocked (metrics st) + 1) /\
  (matching_policies st sz dz protocol port = [] ->
   lateral_movement_blocked (metrics (snd (evaluate_traffic st src dst protocol port)))
   = lateral_movement_blocked (metrics st) /\
   zone_violations (metrics (snd (evaluate_traffic st src dst protocol port)))
   = zone_violations (metrics st) + 1).
Proof.
  intros Hs Hd Hsz Hdz. unfold evaluate_traffic. rewrite Hs, Hd.
  destruct (matching_policies st sz dz protocol port) as [|p rest]; simpl.
  - intros _. split; [congruence|]. intros _. split; reflexivity.
  - intros Hdeny. rewrite Hdeny, Hsz, Hdz. simpl.
    split; [reflexivity|discriminate].
Qed.

Lemma lateral_movement_counted_witness :
  fst (evaluate_traffic Examples.plant "cam_01" "plug_02" "mqtt" 1883) = false /\
  lateral_movement_blocked
    (metrics (snd (evaluate_traffic Examples.plant "cam_01" "plug_02" "mqtt" 1883)))
  = lateral_movement_blocked (metrics Examples.plant) + 1.
Proof.
  split; [reflexivity|].
  apply (lateral_movement_counted Examples.plant "cam_01" "plug_02"
           IOT_TRUSTED IOT_UNTRUSTED "mqtt" 1883);
    try reflexivity.
  vm_compute. discriminate.
Defined.

(** Each default policy of priority 200 or more is a denial. *)
Lemma default_policies_high_deny p :
  In p default_policies -> 200 <= priority p -> action p = "deny".
Proof.
  intros Hin. vm_compute in Hin.
  repeat (destruct Hin as [<-|Hin]; [simpl; intros; (lia || reflexivity)|]).
  destruct Hin.
Qed.

Lemma lateral_deny_policy_default sz dz :
  is_iot_zone sz = true -> is_iot_zone dz = true -> sz <> dz ->
  In (lateral_deny_policy sz dz) default_policies.
Proof.
  intros Hs Hd Hne.
  destruct sz; try discriminate; destruct dz; try discriminate;
    try congruence; vm_compute; tauto.
Qed.

(** Under the default policy set a flow between the two IoT zones is denied
    by a policy, and counted as blocked lateral movement. *)
Lemma default_lateral_movement_blocked st src dst sz dz protocol port :
  policies st = default_policies ->
  device_zones st !! src = Some sz ->
  device_zones st !! dst = Some dz ->
  is_iot_zone sz = true -> is_iot_zone dz = true -> sz <> dz ->
  fst (evaluate_traffic st src dst protocol port) = false /\
  lateral_movement_blocked (metrics (snd (evaluate_traffic st src dst protocol port)))
  = lateral_movement_blocked (metrics st) + 1.
Proof.
  intros Hpol Hs Hd Hsz Hdz Hne.
  assert (exists p rest, matching_policies st sz dz protocol port = p :: rest
                         /\ action p = "deny") as (p & rest & E & Hact).
  { pose proof (lateral_deny_policy_default sz dz Hsz Hdz Hne) as Hin.
    assert (matches (lateral_deny_policy sz dz) sz dz protocol port = true) as Hm.
    { unfold matches. simpl. rewrite !bool_decide_eq_true_2 by reflexivity.
      simpl. now rewrite !orb_true_r. }
    destruct (filter_nonempty
                (fun p => enabled p && matches p sz dz protocol port)
                (sorted_by_priority (policies st))
                (lateral_deny_policy sz dz)) as (p & rest & E).
    - apply sorted_by_priority_In. now rewrite Hpol.
    - now rewrite Hm.
    - exists p, rest. split; [exact E|].
      apply matching_policies_head in E as (Hp & _ & _ & Hmax).
      rewrite Hpol in Hp, Hmax.
      apply default_policies_high_deny; [assumption|].
      now apply (Hmax (lateral_deny_policy sz dz)). }
  unfold evaluate_traffic. rewrite Hs, Hd, E, Hact, Hsz, Hdz.
  split; reflexivity.
Qed.

(** *** Accounting of evaluated flows *)

(** C9, as stated, fails: a flow between two assigned devices that matches
    no policy is denied without any entry being appended to the traffic
    log. *)
Lemma default_deny_leaves_no_log_entry :
  device_zones Examples.plant !! "gw" = Some CLOUD_GATEWAY /\
  device_zones Examples.plant !! "cam_01" = Some IOT_TRUSTED /\
  traffic_log (snd (evaluate_traffic Examples.plant "gw" "cam_01" "mqtt" 1883))
  = traffic_log Examples.plant.
Proof. repeat split; reflexivity. Qed.

(** C9, amended: for a flow between two assigned devices, exactly one of
    [packets_allowed] and [packets_denied] is incremented, by one, the one
    matching the verdict; when a policy matched, exactly one entry, recording
    the flow, the selected policy and the verdict, is appended to the traffic
    log; when no policy matched, the traffic log is not changed. *)
Theorem evaluated_flow_accounting
    (st : MicroSegmentationManager) (src dst : string) (sz dz : SecurityZone)
    (protocol : string) (port : Z) :
  device_zones st !! src = Some sz ->
  device_zones st !! dst = Some dz ->
  (if fst (evaluate_traffic st src dst protocol port)
   then packets_allowed (metrics (snd (evaluate_traffic st src dst protocol port)))
        = packets_allowed (metrics st) + 1 /\
        packets_denied (metrics (snd (evaluate_traffic st src dst protocol port)))
        = packets_denied (metrics st)
   else packets_denied (metrics (snd (evaluate_traffic st src dst protocol port)))
        = packets_denied (metrics st) + 1 /\
        packets_allowed (metrics (snd (evaluate_traffic st src dst protocol port)))
        = packets_allowed (metrics st)) /\
  (forall policy rest,
     matching_policies st sz dz protocol port = policy :: rest ->
     traffic_log (snd (evaluate_traffic st src dst protocol port))
     = (traffic_log st
        ++ [mkLogEntry src dst (zone_value sz) (zone_value dz) protocol port
              (name policy) (action policy)
              (fst (evaluate_traffic st src dst protocol port))])%list) /\
  (matching_policies st sz dz protocol port = [] ->
   traffic_log (snd (evaluate_traffic st src dst protocol port)) = traffic_log st).
Proof.
  intros Hs Hd. unfold evaluate_traffic. rewrite Hs, Hd.
  destruct (matching_policies st sz dz protocol port) as [|p rest]; simpl.
  - split; [split; reflexivity|]. split; [discriminate|reflexivity].
  - split; [|split; [|discriminate]].
    + destruct (String.eqb (action p) "allow"); simpl; [split; reflexivity|].
      destruct (is_iot_zone sz && is_iot_zone dz); split; reflexivity.
    + intros policy rest' [= <- _]. reflexivity.
Qed.

Lemma evaluated_flow_accounting_witness :
  fst (evaluate_traffic Examples.plant "cam_01" "gw" "mqtt" 1883) = true /\
  packets_allowed (metrics (snd (evaluate_traffic Examples.plant "cam_01" "gw" "mqtt" 1883)))
  = 1 /\
  length (traffic_log (snd (evaluate_traffic Examples.plant "cam_01" "gw" "mqtt" 1883)))
  = 1%nat.
Proof.
  destruct (evaluated_flow_accounting Examples.plant "cam_01" "gw"
              IOT_TRUSTED CLOUD_GATEWAY "mqtt" 1883 eq_refl eq_refl)
    as (Hcount & Hlog & _).
  split; [reflexivity|]. split.
  - exact (proj1 Hcount).
  - rewrite (Hlog _ _ eq_refl). reflexivity.
Defined.

End SegmentationProperties.

(** ** Properties of the zero-trust authenticator *)

Module AuthenticatorProperties.

Import ZeroTrust.

Section WithLibraries.

Context {Token : Type}.
Variable jwt_encode : TokenPayload -> string -> Token.
Variable jwt_decode : Token -> string -> datetime -> JwtOutcome.
Variable load_pem_x509_certificate : list Byte.byte -> option Certificate.

(** *** Token verification *)

(** C3, amended: [verify_token] returns [None] both for a token whose expiry
    has passed and for a token that fails integrity verification; the two
    failure classes differ only in the warning that is logged. *)
Theorem verify_token_failures_share_result
    (self : ZeroTrustAuthenticator) (expired tampered : Token) (now : datetime)
    (msg : string) :
  jwt_decode expired (jwt_secret self) now = JwtExpiredSignatureError ->
  jwt_decode tampered (jwt_secret self) now = JwtInvalidTokenError msg ->
  fst (verify_token jwt_decode self expired now) = None /\
  fst (verify_token jwt_decode self tampered now) = None /\
  snd (verify_token jwt_decode self expired now)
    <> snd (verify_token jwt_decode self tampered now).
Proof.
  intros He Ht. unfold verify_token. rewrite He, Ht. simpl.
  split; [reflexivity|]. split; [reflexivity|]. discriminate.
Qed.

(** *** Authentication *)

(** The certificate check touches nothing but the metrics. *)
Lemma _verify_mtls_certificate_frame self cert_pem now :
  token_lifetime (snd (_verify_mtls_certificate load_pem_x509_certificate
                         self cert_pem now)) = token_lifetime self /\
  auth_contexts (snd (_verify_mtls_certificate load_pem_x509_certificate
                        self cert_pem now)) = auth_contexts self.
Proof.
  unfold _verify_mtls_certificate.
  destruct (negb _ || negb _); [now split|].
  destruct cert_pem as [[| |bs]|]; try now split.
  destruct (load_pem_x509_certificate bs) as [c|]; [|now split].
  destruct (_ || _); now split.
Qed.

Lemma authenticate_device_success self device_id device_type credentials method
    now_cert now_auth token self' :
  authenticate_device jwt_encode load_pem_x509_certificate self device_id
    device_type credentials method now_cert now_auth = (Some token, self') ->
  token_lifetime self' = token_lifetime self /\
  auth_contexts self' !! device_id
  = Some (mkContext device_id device_type method now_auth
            (now_auth + token_lifetime self) 100%Q true true true).
Proof.
  unfold authenticate_device.
  set (self0 := with_metrics self (incr_auth_attempts (metrics self))).
  destruct (String.eqb method "jwt").
  - destruct (_verify_jwt_credentials device_id credentials); [|discriminate].
    intros [= _ <-]. simpl. now rewrite lookup_insert_eq.
  - destruct (String.eqb method "mtls").
    + pose proof (_verify_mtls_certificate_frame self0
                    (credentials !! "certificate") now_cert) as [Hlt _].
      destruct (_verify_mtls_certificate _ _ _ _) as [[|] s]; [|discriminate].
      simpl in Hlt. intros [= _ <-]. simpl. rewrite lookup_insert_eq.
      now rewrite Hlt.
    + destruct (String.eqb method "oauth"); [|discriminate].
      destruct (_verify_oauth_token _); [|discriminate].
      intros [= _ <-]. simpl. now rewrite lookup_insert_eq.
Qed.

(** C7: whatever context the device had before, a successful
    [authenticate_device] leaves a stored context with trust score 100,
    normal behaviour, and [expires_at = auth_time + token_lifetime]. *)
Theorem authenticate_device_resets_context
    (self self' : ZeroTrustAuthenticator) (device_id device_type : string)
    (credentials : gmap string PyValue) (method : string)
    (now_cert now_auth : datetime) (token : Token) :
  authenticate_device jwt_encode load_pem_x509_certificate self device_id
    device_type credentials method now_cert now_auth = (Some token, self') ->
  exists context,
    auth_contexts self' !! device_id = Some context /\
    trust_score context = 100%Q /\
    behavior_normal context = true /\
    auth_time context = now_auth /\
    expires_at context = auth_time context + token_lifetime self' /\
    token_lifetime self' = token_lifetime self.
Proof.
  intros H.
  destruct (authenticate_device_success _ _ _ _ _ _ _ _ _ H) as [Hlt Hctx].
  eexists. split; [exact Hctx|]. simpl. rewrite Hlt. repeat split; reflexivity.
Qed.

(** C10: an authenticator without a CA certificate rejects every mTLS
    authentication, whatever certificate the credentials carry, and its
    contexts stay as they were. *)
Theorem mtls_without_ca_fails
    (self : ZeroTrustAuthenticator) (device_id device_type : string)
    (credentials : gmap string PyValue) (now_cert now_auth : datetime) :
  ca_cert self = None ->
  fst (authenticate_device jwt_encode load_pem_x509_certificate self device_id
         device_type credentials "mtls" now_cert now_auth) = None /\
  auth_contexts
    (snd (authenticate_device jwt_encode load_pem_x509_certificate self
            device_id device_type credentials "mtls" now_cert now_auth))
  = auth_contexts self.
Proof.
  intros Hca. unfold authenticate_device, _verify_mtls_certificate. simpl.
  rewrite Hca. simpl. rewrite orb_true_r. simpl. split; reflexivity.
Qed.

(** *** Continuous checks *)

(** C8, amended: a continuous check that gets past the two guards (the
    device has a context and the context has not expired when the guard
    reads the clock) and reports the device untrusted adds exactly 1 to
    [trust_violations]; a check stopped by a guard (no context, or a context
    already expired) reports the device untrusted and leaves
    [trust_violations] as it is. *)
Theorem failed_check_counts_violation
    (self : ZeroTrustAuthenticator) (device_id : string) (behavior_data : gmap string Q)
    (now_guard now_decay now_trust : datetime) :
  (forall context,
     auth_contexts self !! device_id = Some context ->
     is_expired context now_guard = false ->
     fst (continuous_authentication_check self device_id behavior_data
            now_guard now_decay now_trust) = false ->
     trust_violations
       (metrics (snd (continuous_authentication_check self device_id
                        behavior_data now_guard now_decay now_trust)))
     = trust_violations (metrics self) + 1) /\
  ((auth_contexts self !! device_id = None \/
    exists context, auth_contexts self !! device_id = Some context /\
                    is_expired context now_guard = true) ->
   fst (continuous_authentication_check self device_id behavior_data
          now_guard now_decay now_trust) = false /\
   trust_violations
     (metrics (snd (continuous_authentication_check self device_id
                      behavior_data now_guard now_decay now_trust)))
   = trust_violations (metrics self)).
Proof.
  unfold continuous_authentication_check. simpl. split.
  - intros context -> ->.
    destruct (is_trusted _ _ _); simpl; [discriminate|reflexivity].
  - intros [->|(context & -> & ->)]; split; reflexivity.
Qed.

(** *** Token refresh *)

(** C6: for a device with a context, [refresh_token] fails whenever the
    device is not trusted at the time of the call, in particular whenever
    its trust score is below 70; when it succeeds, the stored context has
    [auth_time] set to the current time and [expires_at] to
    [auth_time + token_lifetime], with the trust score and every other field
    as before. *)
Theorem refresh_token_frame
    (self : ZeroTrustAuthenticator) (device_id : string) (context : AuthContext)
    (now_trust now_auth : datetime) :
  auth_contexts self !! device_id = Some context ->
  (is_trusted context 70%Q now_trust = false ->
   refresh_token jwt_encode self device_id now_trust now_auth = (None, self)) /\
  ((trust_score context < 70)%Q ->
   fst (refresh_token jwt_encode self device_id now_trust now_auth) = None) /\
  (forall token self',
     refresh_token jwt_encode self device_id now_trust now_auth
     = (Some token, self') ->
     is_trusted context 70%Q now_trust = true /\
     auth_contexts self' !! device_id
     = Some (mkContext (ZeroTrust.device_id context) (device_type context)
               (auth_method context) now_auth (now_auth + token_lifetime self)
               (trust_score context) (behavior_normal context)
               (location_verified context) (certificate_valid context)) /\
     forall other, other <> device_id ->
                   auth_contexts self' !! other = auth_contexts self !! other).
Proof.
  intros Hctx. unfold refresh_token. rewrite Hctx.
  split; [|split].
  - now intros ->.
  - intros Hlt.
    assert (is_trusted context 70%Q now_trust = false) as ->; [|reflexivity].
    unfold is_trusted, score_ge.
    destruct (Qle_bool 70 (trust_score context)) eqn:E.
    + apply Qle_bool_iff in E. exfalso. revert E. now apply Qlt_not_le.
    + now rewrite andb_false_r.
  - intros token self'.
    destruct (is_trusted context 70%Q now_trust); simpl; [|discriminate].
    intros [= _ <-]. simpl. split; [reflexivity|]. split.
    + now rewrite lookup_insert_eq.
    + intros other Hne. now rewrite lookup_insert_ne.
Qed.

End WithLibraries.

(** *** Repeated anomalous checks *)

(** One anomalous check of an unexpired context: the penalty is subtracted
    without any clamping, behaviour is marked abnormal, and the check reports
    the device untrusted. *)
Lemma anomalous_check_step self device_id context behavior_data
    now_guard now_decay now_trust :
  auth_contexts self !! device_id = Some context ->
  is_expired context now_guard = false ->
  score_gt (default 0%Q (behavior_data !! "anomaly_score")) (1 # 2)%Q = true ->
  fst (continuous_authentication_check self device_id behavior_data
         now_guard now_decay now_trust) = false /\
  auth_contexts (snd (continuous_authentication_check self device_id
                        behavior_data now_guard now_decay now_trust))
    !! device_id
  = Some (set_trust context (trust_score context - anomaly_penalty self)%Q false) /\
  anomaly_penalty (snd (continuous_authentication_check self device_id
                          behavior_data now_guard now_decay now_trust))
  = anomaly_penalty self.
Proof.
  intros Hctx Hexp Hanom. unfold continuous_authentication_check. simpl.
  rewrite Hctx, Hexp, Hanom.
  assert (is_trusted
            (set_trust context (trust_score context - anomaly_penalty self)%Q false)
            70%Q now_trust = false) as ->.
  { unfold is_trusted. simpl. now rewrite andb_false_r. }
  simpl. rewrite lookup_insert_eq. repeat split; reflexivity.
Qed.

(** After [k] anomalous checks of a session that stays unexpired the stored
    trust score is the initial one minus [k] penalties: nothing stops it at
    zero. *)
Lemma anomalous_checks_trust k : forall self context now,
  auth_contexts self !! "cam_01" = Some context ->
  is_expired context now = false ->
  exists context',
    auth_contexts (AuthExamples.anomalous_checks k self now) !! "cam_01"
    = Some context' /\
    expires_at context' = expires_at context /\
    (trust_score context'
     == trust_score context - inject_Z (Z.of_nat k) * anomaly_penalty self)%Q.
Proof.
  induction k as [|k IH]; intros self context now Hctx Hexp.
  - exists context. simpl. split; [assumption|]. split; [reflexivity|].
    change (inject_Z 0) with 0%Q. ring.
  - destruct (anomalous_check_step self "cam_01" context
                AuthExamples.anomalous now now now Hctx Hexp eq_refl)
      as (_ & Hctx1 & Hpen).
    destruct (IH _ _ now Hctx1 Hexp) as (context' & Hc & He & Ht).
    exists context'. split; [exact Hc|]. split; [exact He|].
    rewrite Ht, Hpen. simpl trust_score.
    rewrite Nat2Z.inj_succ, <- Z.add_1_r, inject_Z_plus.
    change (inject_Z 1) with 1%Q. ring.
Qed.

(** C4: the code departs from the claim.  A session fresh from
    [authenticate_device] has trust score 100; after six anomalous checks
    within its lifetime the stored trust score is -20, not the clamped
    value max(0, 100 - 120) = 0.  The first of these checks already reports
    the device untrusted, with the trust score at 80. *)
Theorem anomaly_penalty_not_clamped :
  fst (AuthExamples.login AuthExamples.fresh 0) = Some AuthExamples.issued /\
  get_trust_score AuthExamples.session "cam_01" = Some 100%Q /\
  get_trust_score
    (AuthExamples.anomalous_checks 6 AuthExamples.session AuthExamples.one_second)
    "cam_01" = Some (-20)%Q /\
  fst (AuthExamples.check AuthExamples.session AuthExamples.anomalous
         AuthExamples.one_second) = false /\
  get_trust_score
    (AuthExamples.anomalous_checks 1 AuthExamples.session AuthExamples.one_second)
    "cam_01" = Some 80%Q.
Proof. repeat split; vm_compute; reflexivity. Qed.

(** *** The properties on concrete sessions *)

(** C3, as stated, fails: the token of the session, verified after its
    expiry, and a token signed with another key make the decoder raise
    different errors, and [verify_token] returns the same value for both. *)
Lemma verify_token_collapses_failures :
  SymbolicJwt.decode AuthExamples.issued (jwt_secret AuthExamples.session)
    AuthExamples.six_minutes = JwtExpiredSignatureError /\
  SymbolicJwt.decode AuthExamples.forged (jwt_secret AuthExamples.session)
    AuthExamples.six_minutes
  = JwtInvalidTokenError "Signature verification failed" /\
  fst (verify_token SymbolicJwt.decode AuthExamples.session AuthExamples.issued
         AuthExamples.six_minutes)
  = fst (verify_token SymbolicJwt.decode AuthExamples.session AuthExamples.forged
           AuthExamples.six_minutes).
Proof. repeat split; reflexivity. Qed.

Lemma verify_token_failures_share_result_witness :
  fst (verify_token SymbolicJwt.decode AuthExamples.session AuthExamples.issued
         AuthExamples.six_minutes) = None /\
  fst (verify_token SymbolicJwt.decode AuthExamples.session AuthExamples.forged
         AuthExamples.six_minutes) = None /\
  snd (verify_token SymbolicJwt.decode AuthExamples.session AuthExamples.issued
         AuthExamples.six_minutes)
  <> snd (verify_token SymbolicJwt.decode AuthExamples.session AuthExamples.forged
            AuthExamples.six_minutes).
Proof.
  apply (verify_token_failures_share_result SymbolicJwt.decode
           AuthExamples.session AuthExamples.issued AuthExamples.forged
           AuthExamples.six_minutes "Signature verification failed");
    reflexivity.
Defined.

(** A session degraded by two anomalous checks is replaced by a fresh one. *)
Lemma authenticate_device_resets_context_witness :
  get_trust_score
    (AuthExamples.anomalous_checks 2 AuthExamples.session AuthExamples.one_second)
    "cam_01" = Some 60%Q /\
  exists context,
    auth_contexts
      (snd (AuthExamples.login
              (AuthExamples.anomalous_checks 2 AuthExamples.session
                 AuthExamples.one_second)
              AuthExamples.six_minutes)) !! "cam_01" = Some context /\
    trust_score context = 100%Q /\
    behavior_normal context = true /\
    expires_at context = AuthExamples.six_minutes + 300000000.
Proof.
  split; [vm_compute; reflexivity|].
  destruct (authenticate_device_resets_context
              SymbolicJwt.encode SymbolicJwt.load_pem
              (AuthExamples.anomalous_checks 2 AuthExamples.session
                 AuthExamples.one_second)
              (snd (AuthExamples.login
                      (AuthExamples.anomalous_checks 2 AuthExamples.session
                         AuthExamples.one_second)
                      AuthExamples.six_minutes))
              "cam_01" "camera" AuthExamples.key_bundle "jwt"
              AuthExamples.six_minutes AuthExamples.six_minutes
              (SymbolicJwt.mkSigned
                 (mkPayload "cam_01" "camera" "jwt" 360 660 100%Q) "s3cret"))
    as (context & Hctx & Ht & Hb & Ha & He & Hl).
  - vm_compute. reflexivity.
  - exists context. split; [exact Hctx|]. split; [exact Ht|]. split; [exact Hb|].
    rewrite He, Ha, Hl. reflexivity.
Defined.

(** A certificate that the loader accepts and that is within its validity
    window is still rejected when there is no CA certificate. *)
Lemma mtls_without_ca_fails_witness :
  SymbolicJwt.load_pem [Byte.x2d; Byte.x2d]
  = Some (mkCertificate 0 1000000000000000) /\
  fst (authenticate_device SymbolicJwt.encode SymbolicJwt.load_pem
         AuthExamples.fresh "cam_01" "camera" AuthExamples.cert_bundle "mtls"
         AuthExamples.one_second AuthExamples.one_second) = None /\
  auth_contexts
    (snd (authenticate_device SymbolicJwt.encode SymbolicJwt.load_pem
            AuthExamples.fresh "cam_01" "camera" AuthExamples.cert_bundle "mtls"
            AuthExamples.one_second AuthExamples.one_second))
  = auth_contexts AuthExamples.fresh.
Proof.
  split; [reflexivity|].
  apply (mtls_without_ca_fails SymbolicJwt.encode SymbolicJwt.load_pem
           AuthExamples.fresh "cam_01" "camera" AuthExamples.cert_bundle
           AuthExamples.one_second AuthExamples.one_second).
  reflexivity.
Defined.

(** C8, as stated, fails: a check of a session that has expired reports the
    device untrusted and leaves [trust_violations] as it is. *)
Lemma expired_check_counts_no_violation :
  auth_contexts AuthExamples.session !! "cam_01"
  = Some (mkContext "cam_01" "camera" "jwt" 0 300000000 100%Q true true true) /\
  is_expired (mkContext "cam_01" "camera" "jwt" 0 300000000 100%Q true true true)
    AuthExamples.six_minutes = true /\
  fst (AuthExamples.check AuthExamples.session AuthExamples.quiet
         AuthExamples.six_minutes) = false /\
  trust_violations
    (metrics (snd (AuthExamples.check AuthExamples.session AuthExamples.quiet
                     AuthExamples.six_minutes)))
  = trust_violations (metrics AuthExamples.session).
Proof. repeat split; vm_compute; reflexivity. Qed.

Lemma failed_check_counts_violation_witness :
  fst (AuthExamples.check AuthExamples.session AuthExamples.anomalous
         AuthExamples.one_second) = false /\
  trust_violations
    (metrics (snd (AuthExamples.check AuthExamples.session AuthExamples.anomalous
                     AuthExamples.one_second)))
  = trust_violations (metrics AuthExamples.session) + 1.
Proof.
  split; [vm_compute; reflexivity|].
  apply (proj1 (failed_check_counts_violation AuthExamples.session "cam_01"
                  AuthExamples.anomalous AuthExamples.one_second
                  AuthExamples.one_second AuthExamples.one_second)
           (mkContext "cam_01" "camera" "jwt" 0 300000000 100%Q true true true)).
  - vm_compute. reflexivity.
  - reflexivity.
  - vm_compute. reflexivity.
Defined.

(** A session degraded to trust score 60 cannot be refreshed although it
    has not expired; the fresh session can, and keeps its trust score. *)
Lemma refresh_token_frame_witness :
  fst (refresh_token SymbolicJwt.encode
         (AuthExamples.anomalous_checks 2 AuthExamples.session
            AuthExamples.one_second)
         "cam_01" AuthExamples.one_second AuthExamples.one_second) = None /\
  auth_contexts
    (snd (refresh_token SymbolicJwt.encode AuthExamples.session "cam_01"
            AuthExamples.one_second AuthExamples.one_second)) !! "cam_01"
  = Some (mkContext "cam_01" "camera" "jwt" 1000000 301000000 100%Q
            true true true).
Proof.
  split.
  - apply (proj1 (proj2 (refresh_token_frame SymbolicJwt.encode
             (AuthExamples.anomalous_checks 2 AuthExamples.session
                AuthExamples.one_second)
             "cam_01"
             (mkContext "cam_01" "camera" "jwt" 0 300000000 60%Q false true true)
             AuthExamples.one_second AuthExamples.one_second
             ltac:(vm_compute; reflexivity)))).
    reflexivity.
  - apply (proj2 (proj2 (refresh_token_frame SymbolicJwt.encode
             AuthExamples.session "cam_01"
             (mkContext "cam_01" "camera" "jwt" 0 300000000 100%Q true true true)
             AuthExamples.one_second AuthExamples.one_second
             ltac:(vm_compute; reflexivity)))
             (SymbolicJwt.mkSigned
                (mkPayload "cam_01" "camera" "jwt" 1 301 100%Q) "s3cret")).
    vm_compute. reflexivity.
Defined.

End AuthenticatorProperties.

(** ** Further properties of the micro-segmentation manager *)

Module SegmentationMore.

Import MicroSegmentation Reports SegmentationProperties.

(** *** Which policy decides *)

Lemma insert_by_priority_below p l :
  below (priority p) l -> insert_by_priority p l = p :: l.
Proof.
  destruct l as [|a l]; [reflexivity|]. intros H. simpl.
  destruct (Z.leb_spec (priority a) (priority p)); [reflexivity|].
  specialize (H a (or_introl eq_refl)). lia.
Qed.

Lemma below_filter (g : NetworkPolicy -> bool) n l :
  below n l -> below n (List.filter g l).
Proof. intros H q Hq. apply filter_In in Hq as [Hq _]. auto. Qed.

Lemma descending_tail_below a l q :
  descending (a :: l) -> In q l -> priority q <= priority a.
Proof. inversion 1; subst; auto. Qed.

(** Filtering commutes with the priority sort. *)
Lemma filter_insert_by_priority (g : NetworkPolicy -> bool) x s :
  descending s ->
  List.filter g (insert_by_priority x s)
  = if g x then insert_by_priority x (List.filter g s) else List.filter g s.
Proof.
  induction 1 as [|a s Ha Hs IH]; simpl.
  - destruct (g x); reflexivity.
  - destruct (Z.leb_spec (priority a) (priority x)) as [Hle|Hgt]; simpl.
    + destruct (g x) eqn:Hx; [|reflexivity].
      destruct (g a) eqn:Hga.
      * simpl. destruct (Z.leb_spec (priority a) (priority x)); [reflexivity|lia].
      * symmetry. apply insert_by_priority_below, below_filter.
        intros q Hq. specialize (Ha q Hq). lia.
    + rewrite IH. destruct (g a) eqn:Hga; destruct (g x) eqn:Hx; try reflexivity.
      simpl. destruct (Z.leb_spec (priority a) (priority x)); [lia|reflexivity].
Qed.

Lemma filter_sorted_by_priority (g : NetworkPolicy -> bool) l :
  List.filter g (sorted_by_priority l) = sorted_by_priority (List.filter g l).
Proof.
  induction l as [|x l IH]; [reflexivity|]. simpl.
  rewrite filter_insert_by_priority by apply sorted_by_priority_descending.
  rewrite IH. destruct (g x); reflexivity.
Qed.

(** The first policy of the sorted list that passes a filter is the
    earliest policy of the original list among those of largest priority
    that pass it. *)
Lemma first_match_is_earliest (f : NetworkPolicy -> bool) l : forall p rest,
  List.filter f (sorted_by_priority l) = p :: rest ->
  exists l1 l2,
    l = (l1 ++ p :: l2)%list /\
    f p = true /\
    (forall q, In q l1 -> f q = true -> priority q < priority p) /\
    (forall q, In q l2 -> f q = true -> priority q <= priority p).
Proof.
  induction l as [|x l IH]; intros p rest; [discriminate|].
  simpl. rewrite filter_insert_by_priority by apply sorted_by_priority_descending.
  destruct (f x) eqn:Hx.
  - destruct (List.filter f (sorted_by_priority l)) as [|y ys] eqn:E.
    + simpl. intros [= <- _]. exists [], l. split; [reflexivity|].
      split; [assumption|]. split; [intros q []|].
      intros q Hq Hfq. exfalso.
      assert (In q (List.filter f (sorted_by_priority l))) as Hin.
      { apply filter_In. split; [now apply sorted_by_priority_In|assumption]. }
      rewrite E in Hin. destruct Hin.
    + simpl. destruct (Z.leb_spec (priority y) (priority x)) as [Hle|Hgt].
      * intros [= <- _]. exists [], l. split; [reflexivity|].
        split; [assumption|]. split; [intros q []|].
        intros q Hq Hfq.
        destruct (first_match_is_strongest f _ _ _
                    (sorted_by_priority_descending l) E) as (_ & _ & Hmax).
        specialize (Hmax q (proj2 (sorted_by_priority_In q l) Hq) Hfq). lia.
      * intros [= <- _].
        destruct (IH _ _ eq_refl) as (l1 & l2 & -> & Hy & H1 & H2).
        exists (x :: l1), l2. split; [reflexivity|]. split; [assumption|].
        split; [|assumption].
        intros q [<-|Hq] Hfq; [lia|auto].
  - intros E. destruct (IH _ _ E) as (l1 & l2 & -> & Hp & H1 & H2).
    exists (x :: l1), l2. split; [reflexivity|]. split; [assumption|].
    split; [|assumption].
    intros q [<-|Hq] Hfq; [congruence|auto].
Qed.

(** X2: among the enabled policies that match a flow, [evaluate_traffic]
    decides with one of largest priority, and among those of that priority
    with the one that was added first. *)
Theorem selected_policy_earliest_strongest
    (st : MicroSegmentationManager) (sz dz : SecurityZone)
    (protocol : string) (port : Z) (p : NetworkPolicy) :
  selected_policy st sz dz protocol port = Some p ->
  exists l1 l2,
    policies st = (l1 ++ p :: l2)%list /\
    enabled p = true /\
    matches p sz dz protocol port = true /\
    (forall q, In q l1 -> enabled q = true ->
               matches q sz dz protocol port = true ->
               priority q < priority p) /\
    (forall q, In q l2 -> enabled q = true ->
               matches q sz dz protocol port = true ->
               priority q <= priority p).
Proof.
  unfold selected_policy, matching_policies.
  destruct (List.filter _ _) as [|p' rest] eqn:E; [discriminate|].
  intros [= ->].
  destruct (first_match_is_earliest _ _ _ _ E) as (l1 & l2 & Hl & Hp & H1 & H2).
  apply andb_true_iff in Hp as [He Hm].
  exists l1, l2. split; [assumption|]. split; [assumption|].
  split; [assumption|]. split.
  - intros q Hq Heq Hmq. apply H1; [assumption|]. now rewrite Heq, Hmq.
  - intros q Hq Heq Hmq. apply H2; [assumption|]. now rewrite Heq, Hmq.
Qed.

Lemma selected_policy_earliest_strongest_witness :
  selected_policy MoreExamples.tied DMZ CLOUD_GATEWAY "https" 443
  = Some MoreExamples.dmz_allow /\
  exists l1 l2,
    policies MoreExamples.tied = (l1 ++ MoreExamples.dmz_allow :: l2)%list /\
    In MoreExamples.dmz_deny l2.
Proof.
  split; [reflexivity|].
  destruct (selected_policy_earliest_strongest MoreExamples.tied DMZ
              CLOUD_GATEWAY "https" 443 MoreExamples.dmz_allow eq_refl)
    as (l1 & l2 & Hl & _ & _ & H1 & _).
  exists l1, l2. split; [exact Hl|].
  assert (In MoreExamples.dmz_deny (policies MoreExamples.tied)) as Hin
    by (vm_compute; tauto).
  rewrite Hl in Hin. apply in_app_iff in Hin as [Hin|[Heq|Hin]].
  - specialize (H1 _ Hin eq_refl eq_refl). simpl in H1. lia.
  - discriminate Heq.
  - exact Hin.
Defined.

(** *** Deny by default *)

Lemma evaluate_traffic_allowed st src dst protocol port :
  fst (evaluate_traffic st src dst protocol port) = true ->
  exists sz dz p,
    device_zones st !! src = Some sz /\
    device_zones st !! dst = Some dz /\
    selected_policy st sz dz protocol port = Some p /\
    action p = "allow".
Proof.
  unfold evaluate_traffic, selected_policy.
  destruct (device_zones st !! src) as [sz|]; [|discriminate].
  destruct (device_zones st !! dst) as [dz|]; [|discriminate].
  destruct (matching_policies st sz dz protocol port) as [|p rest] eqn:E;
    [discriminate|].
  simpl. intros H. exists sz, dz, p. rewrite E.
  split; [reflexivity|]. split; [reflexivity|]. split; [reflexivity|].
  now apply String.eqb_eq.
Qed.

(** X1: a flow is allowed only if both devices have a zone and the policy set
    holds an enabled allow policy that matches the flow, such that no enabled
    matching policy has a larger priority. *)
Theorem allow_needs_allow_policy
    (st : MicroSegmentationManager) (src dst protocol : string) (port : Z) :
  fst (evaluate_traffic st src dst protocol port) = true ->
  exists sz dz p,
    device_zones st !! src = Some sz /\
    device_zones st !! dst = Some dz /\
    In p (policies st) /\
    enabled p = true /\
    matches p sz dz protocol port = true /\
    action p = "allow" /\
    forall q, In q (policies st) -> enabled q = true ->
              matches q sz dz protocol port = true ->
              priority q <= priority p.
Proof.
  intros H.
  destruct (evaluate_traffic_allowed _ _ _ _ _ H) as (sz & dz & p & Hs & Hd & Hp & Ha).
  exists sz, dz, p. split; [assumption|]. split; [assumption|].
  unfold selected_policy in Hp.
  destruct (matching_policies st sz dz protocol port) as [|p' rest] eqn:E;
    [discriminate|].
  injection Hp as ->.
  destruct (matching_policies_head _ _ _ _ _ _ _ E) as (Hin & He & Hm & Hmax).
  tauto.
Qed.

Lemma allow_needs_allow_policy_witness :
  exists sz dz p,
    device_zones Examples.plant !! "cam_01" = Some sz /\
    device_zones Examples.plant !! "gw" = Some dz /\
    In p (policies Examples.plant) /\
    action p = "allow".
Proof.
  destruct (allow_needs_allow_policy Examples.plant "cam_01" "gw" "mqtt" 1883
              eq_refl) as (sz & dz & p & Hs & Hd & Hin & _ & _ & Ha & _).
  exists sz, dz, p. tauto.
Defined.

(** *** Disabled policies *)

Lemma matching_policies_without_disabled st sz dz protocol port :
  matching_policies (without_disabled st) sz dz protocol port
  = matching_policies st sz dz protocol port.
Proof.
  unfold matching_policies, without_disabled. simpl.
  rewrite <- filter_sorted_by_priority.
  induction (sorted_by_priority (policies st)) as [|a l IH]; [reflexivity|].
  simpl. destruct (enabled a) eqn:Ha; simpl; [|assumption].
  rewrite Ha. simpl.
  destruct (matches a sz dz protocol port); [f_equal|]; assumption.
Qed.

(** X3: disabled policies have no effect on [evaluate_traffic]: with them
    dropped from the policy set, the verdict, the counters and the traffic log
    come out the same. *)
Theorem disabled_policies_ignored
    (st : MicroSegmentationManager) (src dst protocol : string) (port : Z) :
  fst (evaluate_traffic (without_disabled st) src dst protocol port)
  = fst (evaluate_traffic st src dst protocol port) /\
  metrics (snd (evaluate_traffic (without_disabled st) src dst protocol port))
  = metrics (snd (evaluate_traffic st src dst protocol port)) /\
  traffic_log (snd (evaluate_traffic (without_disabled st) src dst protocol port))
  = traffic_log (snd (evaluate_traffic st src dst protocol port)).
Proof.
  unfold evaluate_traffic.
  change (device_zones (without_disabled st)) with (device_zones st).
  destruct (device_zones st !! src) as [sz|]; [|repeat split].
  destruct (device_zones st !! dst) as [dz|]; [|repeat split].
  rewrite matching_policies_without_disabled.
  destruct (matching_policies st sz dz protocol port); repeat split.
Qed.

(** *** Isolation of the quarantine zone under the default policies *)

(** No default allow policy leaves or enters the quarantine zone. *)
Lemma default_allow_avoids_quarantine p :
  In p default_policies -> action p = "allow" ->
  source_zone p <> IOT_QUARANTINE /\ dest_zone p <> IOT_QUARANTINE.
Proof.
  intros Hin. vm_compute in Hin.
  repeat (destruct Hin as [<-|Hin];
          [simpl; intros; (discriminate || (split; discriminate))|]).
  destruct Hin.
Qed.

Lemma matches_zones p sz dz protocol port :
  matches p sz dz protocol port = true ->
  source_zone p = sz /\ dest_zone p = dz.
Proof.
  unfold matches. intros H.
  apply andb_true_iff in H as [H _]. apply andb_true_iff in H as [H _].
  apply andb_true_iff in H as [H1 H2].
  split; eapply bool_decide_eq_true_1; eassumption.
Qed.

(** X4: under the default policy set a device in quarantine is cut off in both
    directions: every flow from it or to it is denied, whoever the peer is and
    whatever zone, if any, the peer has. *)
Theorem default_quarantine_cut_off
    (st : MicroSegmentationManager) (src dst protocol : string) (port : Z) :
  policies st = default_policies ->
  device_zones st !! src = Some IOT_QUARANTINE \/
  device_zones st !! dst = Some IOT_QUARANTINE ->
  fst (evaluate_traffic st src dst protocol port) = false.
Proof.
  intros Hpol Hq.
  destruct (fst (evaluate_traffic st src dst protocol port)) eqn:E;
    [exfalso|reflexivity].
  destruct (evaluate_traffic_allowed _ _ _ _ _ E)
    as (sz & dz & p & Hs & Hd & Hp & Ha).
  unfold selected_policy in Hp.
  destruct (matching_policies st sz dz protocol port) as [|p' rest] eqn:Em;
    [discriminate|].
  injection Hp as ->.
  destruct (matching_policies_head _ _ _ _ _ _ _ Em) as (Hin & _ & Hm & _).
  rewrite Hpol in Hin.
  destruct (default_allow_avoids_quarantine p Hin Ha) as [Hns Hnd].
  destruct (matches_zones _ _ _ _ _ Hm) as [<- <-].
  destruct Hq as [Hq|Hq]; congruence.
Qed.

Lemma default_quarantine_cut_off_witness :
  fst (evaluate_traffic (quarantine_device Examples.plant "gw")
         "cam_01" "gw" "mqtt" 1883) = false /\
  fst (evaluate_traffic Examples.plant "cam_01" "gw" "mqtt" 1883) = true.
Proof.
  split; [|reflexivity].
  apply (default_quarantine_cut_off (quarantine_device Examples.plant "gw")
           "cam_01" "gw" "mqtt" 1883).
  - reflexivity.
  - right. reflexivity.
Defined.

End SegmentationMore.

(** ** Zone changes, policy changes and counters *)

Module SegmentationState.

Import MicroSegmentation Reports SegmentationProperties SegmentationMore.

(** *** Quarantine and restore *)

(** X6: [restore_device] leaves the manager as it is unless the device is in
    quarantine (also when the device has no zone at all); on a device that
    [quarantine_device] has just isolated it has the effect of assigning the
    target zone. *)
Theorem restore_device_only_from_quarantine
    (st : MicroSegmentationManager) (device_id : string) (zone : SecurityZone) :
  (device_zones st !! device_id <> Some IOT_QUARANTINE ->
   restore_device st device_id zone = st) /\
  restore_device (quarantine_device st device_id) device_id zone
  = assign_device_zone st device_id zone.
Proof.
  split.
  - intros H. unfold restore_device. now rewrite bool_decide_eq_false_2.
  - unfold restore_device, quarantine_device, assign_device_zone. simpl.
    rewrite lookup_insert_eq, bool_decide_eq_true_2 by reflexivity.
    now rewrite insert_insert_eq.
Qed.

(** *** Removing policies *)

Lemma filter_all (g : NetworkPolicy -> bool) l :
  (forall q, In q l -> g q = true) -> List.filter g l = l.
Proof.
  induction l as [|a l IH]; [reflexivity|]. intros H. simpl.
  rewrite (H a (or_introl eq_refl)). f_equal. apply IH. intros q Hq.
  apply H. now right.
Qed.

(** X7: [remove_policy] drops every policy of the given name, not only the one
    added last, and keeps the others in their order: removing the name of a
    policy just added is the same as removing that name before the addition,
    and it gives back the former policy list exactly when that list had no
    policy of this name. *)
Theorem remove_policy_after_add
    (st : MicroSegmentationManager) (policy : NetworkPolicy) :
  (forall q, In q (policies (remove_policy (add_policy st policy) (name policy))) ->
             name q <> name policy) /\
  policies (remove_policy (add_policy st policy) (name policy))
  = policies (remove_policy st (name policy)) /\
  ((forall q, In q (policies st) -> name q <> name policy) <->
   policies (remove_policy (add_policy st policy) (name policy)) = policies st).
Proof.
  assert (policies (remove_policy (add_policy st policy) (name policy))
          = policies (remove_policy st (name policy))) as Heq.
  { unfold remove_policy, add_policy. simpl. rewrite List.filter_app. simpl.
    rewrite String.eqb_refl. simpl. apply app_nil_r. }
  split; [|split; [exact Heq|]].
  - intros q Hq. rewrite Heq in Hq. unfold remove_policy in Hq. simpl in Hq.
    apply filter_In in Hq as [_ Hq]. apply negb_true_iff in Hq.
    now apply String.eqb_neq.
  - rewrite Heq. unfold remove_policy. simpl. split.
    + intros H. apply filter_all. intros q Hq. apply negb_true_iff.
      apply String.eqb_neq. auto.
    + intros H q Hq. rewrite <- H in Hq.
      apply filter_In in Hq as [_ Hq]. apply negb_true_iff in Hq.
      now apply String.eqb_neq.
Qed.

(** *** What a traffic evaluation leaves alone *)

(** X8: [evaluate_traffic] never changes the zone assignments or the policy
    set; the traffic log only grows at its end, by at most one entry; no
    counter decreases. *)
Theorem evaluate_traffic_frame
    (st : MicroSegmentationManager) (src dst protocol : string) (port : Z) :
  device_zones (snd (evaluate_traffic st src dst protocol port)) = device_zones st /\
  policies (snd (evaluate_traffic st src dst protocol port)) = policies st /\
  (exists entries,
     traffic_log (snd (evaluate_traffic st src dst protocol port))
     = (traffic_log st ++ entries)%list /\ (length entries <= 1)%nat) /\
  packets_allowed (metrics st)
    <= packets_allowed (metrics (snd (evaluate_traffic st src dst protocol port))) /\
  packets_denied (metrics st)
    <= packets_denied (metrics (snd (evaluate_traffic st src dst protocol port))) /\
  zone_violations (metrics st)
    <= zone_violations (metrics (snd (evaluate_traffic st src dst protocol port))) /\
  lateral_movement_blocked (metrics st)
    <= lateral_movement_blocked
         (metrics (snd (evaluate_traffic st src dst protocol port))).
Proof.
  unfold evaluate_traffic.
  assert (exists entries : list TrafficLogEntry,
            traffic_log st = (traffic_log st ++ entries)%list
            /\ (length entries <= 1)%nat) as Hnil.
  { exists []. split; [now rewrite app_nil_r|simpl; lia]. }
  destruct (device_zones st !! src) as [sz|];
    [|simpl; repeat split; try lia; exact Hnil].
  destruct (device_zones st !! dst) as [dz|];
    [|simpl; repeat split; try lia; exact Hnil].
  destruct (matching_policies st sz dz protocol port) as [|p rest];
    [simpl; repeat split; try lia; exact Hnil|].
  simpl. split; [reflexivity|]. split; [reflexivity|]. split.
  { eexists [_]. split; [reflexivity|simpl; lia]. }
  destruct (String.eqb (action p) "allow"); simpl; [repeat split; lia|].
  destruct (is_iot_zone sz && is_iot_zone dz); simpl; repeat split; lia.
Qed.

(** *** Counters over a run *)

Lemma accounted_call st c : accounted st -> accounted (call st c).
Proof.
  unfold accounted. intros H.
  destruct c as [d z|d|d z|p|n|s d protocol port]; simpl; try exact H.
  - unfold restore_device. destruct (bool_decide _); exact H.
  - unfold evaluate_traffic.
    destruct (device_zones st !! s) as [sz|]; [|simpl; lia].
    destruct (device_zones st !! d) as [dz|]; [|simpl; lia].
    destruct (matching_policies st sz dz protocol port) as [|p rest];
      [simpl; lia|].
    simpl. rewrite length_app. simpl.
    destruct (String.eqb (action p) "allow"); simpl; [lia|].
    destruct (is_iot_zone sz && is_iot_zone dz); simpl; lia.
Qed.

Lemma accounted_calls cs : forall st, accounted st -> accounted (calls st cs).
Proof.
  unfold calls. induction cs as [|c cs IH]; intros st H; simpl; [exact H|].
  apply IH, accounted_call, H.
Qed.

Lemma accounted_init : accounted __init__.
Proof. unfold accounted. simpl. lia. Qed.

(** X9: after any sequence of calls on a new manager: no counter is negative;
    blocked lateral movements and zone violations together never exceed the
    denials; the traffic log has at least one entry per allowed packet and per
    blocked lateral movement, and at most one per evaluated flow that was not
    a zone violation. *)
Theorem counters_stay_consistent (cs : list Call) :
  0 <= packets_allowed (metrics (calls __init__ cs)) /\
  0 <= zone_violations (metrics (calls __init__ cs)) /\
  0 <= lateral_movement_blocked (metrics (calls __init__ cs)) /\
  zone_violations (metrics (calls __init__ cs))
  + lateral_movement_blocked (metrics (calls __init__ cs))
    <= packets_denied (metrics (calls __init__ cs)) /\
  packets_allowed (metrics (calls __init__ cs))
  + lateral_movement_blocked (metrics (calls __init__ cs))
    <= Z.of_nat (length (traffic_log (calls __init__ cs))) /\
  Z.of_nat (length (traffic_log (calls __init__ cs)))
  + zone_violations (metrics (calls __init__ cs))
    <= packets_allowed (metrics (calls __init__ cs))
       + packets_denied (metrics (calls __init__ cs)).
Proof. exact (accounted_calls cs __init__ accounted_init). Qed.

(** X10: the percentage reported by [get_metrics] lies between 0 and 100 after
    any sequence of calls on a new manager. *)
Theorem lateral_movement_reduction_pct_bounds (cs : list Call) :
  (0 <= lateral_movement_reduction_pct (get_metrics (calls __init__ cs)) <= 100)%Q.
Proof.
  destruct (accounted_calls cs __init__ accounted_init)
    as (_ & Hz & Hl & Hd & _).
  unfold get_metrics. simpl.
  set (st := calls __init__ cs) in *.
  unfold Qle. simpl.
  assert (Z.pos (Z.to_pos (Z.max 1 (packets_denied (metrics st))))
          = Z.max 1 (packets_denied (metrics st))) as ->.
  { apply Z2Pos.id. lia. }
  lia.
Qed.

End SegmentationState.

(** ** The default policies and the reports *)

Module SegmentationReports.

Import MicroSegmentation Reports SegmentationProperties SegmentationMore.


(** *** Telemetry upload under the default policies *)

Lemma telemetry_policy_default : In telemetry_policy default_policies.
Proof. vm_compute. tauto. Qed.

Lemma telemetry_policy_only p :
  In p default_policies ->
  source_zone p = IOT_TRUSTED -> dest_zone p = CLOUD_GATEWAY ->
  p = telemetry_policy.
Proof.
  intros Hin. vm_compute in Hin.
  repeat (destruct Hin as [<-|Hin];
          [simpl; intros; (discriminate || reflexivity)|]).
  destruct Hin.
Qed.

Lemma telemetry_policy_matches protocol port :
  matches telemetry_policy IOT_TRUSTED CLOUD_GATEWAY protocol port
  = str_in protocol ["mqtt"; "coap"; "https"]
    && int_in port [1883; 5683; 8883; 443].
Proof.
  unfold matches, telemetry_policy.
  cbn [source_zone dest_zone allowed_protocols allowed_ports].
  rewrite !bool_decide_eq_true_2 by reflexivity.
  replace (str_in "*" ["mqtt"; "coap"; "https"]) with false by reflexivity.
  replace (int_in 0 [1883; 5683; 8883; 443]) with false by reflexivity.
  now rewrite !orb_false_r.
Qed.

(** X5: under the default policy set a flow from a device of [iot_trusted] to
    a device of [cloud_gateway] is allowed exactly when its protocol is one of
    mqtt, coap, https and its port one of 1883, 5683, 8883, 443; protocol and
    port are checked independently of each other. *)
Theorem default_gateway_ingress
    (st : MicroSegmentationManager) (src dst protocol : string) (port : Z) :
  policies st = default_policies ->
  device_zones st !! src = Some IOT_TRUSTED ->
  device_zones st !! dst = Some CLOUD_GATEWAY ->
  fst (evaluate_traffic st src dst protocol port)
  = str_in protocol ["mqtt"; "coap"; "https"]
    && int_in port [1883; 5683; 8883; 443].
Proof.
  intros Hpol Hs Hd.
  rewrite <- telemetry_policy_matches.
  unfold evaluate_traffic. rewrite Hs, Hd.
  destruct (matching_policies st IOT_TRUSTED CLOUD_GATEWAY protocol port)
    as [|p rest] eqn:E.
  - cbn [fst]. symmetry.
    destruct (matches telemetry_policy IOT_TRUSTED CLOUD_GATEWAY protocol port)
      eqn:Hm; [exfalso|reflexivity].
    destruct (filter_nonempty
                (fun p => enabled p && matches p IOT_TRUSTED CLOUD_GATEWAY
                                         protocol port)
                (sorted_by_priority (policies st)) telemetry_policy)
      as (p & rest & E').
    + apply sorted_by_priority_In. rewrite Hpol. apply telemetry_policy_default.
    + now rewrite Hm.
    + unfold matching_policies in E. congruence.
  - destruct (matching_policies_head _ _ _ _ _ _ _ E) as (Hin & _ & Hm & _).
    rewrite Hpol in Hin.
    destruct (matches_zones _ _ _ _ _ Hm) as [Hsz Hdz].
    rewrite (telemetry_policy_only p Hin Hsz Hdz) in Hm |- *.
    cbn [fst]. now rewrite Hm.
Qed.

Lemma default_gateway_ingress_witness :
  fst (evaluate_traffic Examples.plant "cam_01" "gw" "mqtt" 443) = true /\
  fst (evaluate_traffic Examples.plant "cam_01" "gw" "ssh" 443) = false.
Proof.
  split.
  - rewrite (default_gateway_ingress Examples.plant "cam_01" "gw" "mqtt" 443);
      reflexivity.
  - rewrite (default_gateway_ingress Examples.plant "cam_01" "gw" "ssh" 443);
      reflexivity.
Defined.

(** *** Devices per zone *)

(** X11: [get_zone_devices] lists exactly the devices assigned to the zone,
    each once. *)
Theorem get_zone_devices_spec
    (st : MicroSegmentationManager) (zone : SecurityZone) (device_id : string) :
  (In device_id (get_zone_devices st zone)
   <-> get_device_zone st device_id = Some zone) /\
  NoDup (get_zone_devices st zone).
Proof.
  unfold get_zone_devices, get_device_zone. split.
  - rewrite in_map_iff. split.
    + intros ([d z] & <- & Hin). apply filter_In in Hin as [Hin Hz].
      apply bool_decide_eq_true_1 in Hz. simpl in *. subst z.
      apply list_elem_of_In in Hin. now apply elem_of_map_to_list in Hin.
    + intros H. exists (device_id, zone). split; [reflexivity|].
      apply filter_In. split.
      * apply list_elem_of_In. now apply elem_of_map_to_list.
      * now apply bool_decide_eq_true_2.
  - pose proof (NoDup_fst_map_to_list (device_zones st)) as Hnd.
    revert Hnd. generalize (map_to_list (device_zones st)).
    induction l as [|[d z] l IH]; simpl; [constructor|].
    intros Hnd. apply NoDup_cons in Hnd as [Hd Hnd].
    destruct (bool_decide (z = zone)); simpl; [|auto].
    apply NoDup_cons. split; [|auto].
    intros Hin. apply Hd. apply list_elem_of_In in Hin.
    apply list_elem_of_In. apply in_map_iff in Hin as ([d' z'] & Heq & Hin).
    simpl in Heq. subst d'. apply filter_In in Hin as [Hin _].
    apply in_map_iff. now exists (d, z').
Qed.

Lemma zone_counts_total (l : list (string * SecurityZone)) :
  length l
  = foldr Nat.add 0%nat
      (map (fun zone =>
              length (List.filter (fun dz => bool_decide (snd dz = zone)) l))
         all_zones).
Proof.
  induction l as [|[d z] l IH]; [reflexivity|].
  simpl in *. destruct z; simpl; lia.
Qed.

(** X12: in the report of [get_metrics] the per-zone device counts add up to
    [total_devices]. *)
Theorem get_metrics_zone_counts_add_up (st : MicroSegmentationManager) :
  foldr Z.add 0 (map snd (zones (get_metrics st)))
  = total_devices (get_metrics st).
Proof.
  unfold get_metrics. simpl zones. simpl total_devices.
  rewrite <- length_map_to_list.
  rewrite (zone_counts_total (map_to_list (device_zones st))).
  unfold get_zone_devices, all_zones. simpl.
  rewrite !length_map. lia.
Qed.

End SegmentationReports.

(** ** Properties of the experiment set-up *)

Module ExperimentProperties.

Import MicroSegmentation ZeroTrust Experiment.
Import SegmentationProperties SegmentationMore.

Section WithLibraries.

Context {Token : Type}.
Variable jwt_encode : TokenPayload -> string -> Token.
Variable load_pem_x509_certificate : list Byte.byte -> option Certificate.

(** *** Segmentation *)

Lemma zone_of_device_id_iot device_id :
  is_iot_zone (zone_of_device_id device_id) = true.
Proof. unfold zone_of_device_id. now destruct (_ || _). Qed.

Lemma assign_all_policies (devices : list (IoTDevice Token)) : forall st,
  policies
    (foldl (fun segmentation device =>
              assign_device_zone segmentation (device_id device)
                (zone_of_device_id (device_id device))) st devices)
  = policies st.
Proof.
  induction devices as [|d devices IH]; intros st; simpl; [reflexivity|].
  now rewrite IH.
Qed.

Lemma assign_all_zones (devices : list (IoTDevice Token)) : forall st a,
  In a devices ->
  device_zones
    (foldl (fun segmentation device =>
              assign_device_zone segmentation (device_id device)
                (zone_of_device_id (device_id device))) st devices)
    !! device_id a
  = Some (zone_of_device_id (device_id a)).
Proof.
  induction devices as [|d devices IH] using rev_ind; intros st a Ha;
    [destruct Ha|].
  rewrite foldl_snoc. simpl.
  destruct (decide (device_id d = device_id a)) as [Heq|Hne].
  - rewrite Heq. apply lookup_insert_eq.
  - rewrite lookup_insert_ne by assumption.
    apply in_app_iff in Ha as [Ha|[->|[]]]; [auto|congruence].
Qed.

(** No default allow policy joins two IoT zones. *)
Lemma default_allow_not_between_iot p :
  In p default_policies -> action p = "allow" ->
  is_iot_zone (source_zone p) && is_iot_zone (dest_zone p) = false.
Proof.
  intros Hin. vm_compute in Hin.
  repeat (destruct Hin as [<-|Hin];
          [simpl; intros; (discriminate || reflexivity)|]).
  destruct Hin.
Qed.

(** Under the default policies a flow between two devices of the IoT zones,
    of the same zone or not, is denied. *)
Lemma default_iot_peers_denied st src dst sz dz protocol port :
  policies st = default_policies ->
  device_zones st !! src = Some sz ->
  device_zones st !! dst = Some dz ->
  is_iot_zone sz = true -> is_iot_zone dz = true ->
  fst (evaluate_traffic st src dst protocol port) = false.
Proof.
  intros Hpol Hs Hd Hsz Hdz.
  destruct (fst (evaluate_traffic st src dst protocol port)) eqn:E;
    [exfalso|reflexivity].
  destruct (evaluate_traffic_allowed _ _ _ _ _ E)
    as (sz' & dz' & p & Hs' & Hd' & Hp & Ha).
  rewrite Hs in Hs'. rewrite Hd in Hd'.
  injection Hs' as <-. injection Hd' as <-.
  unfold Reports.selected_policy in Hp.
  destruct (matching_policies st sz dz protocol port) as [|p' rest] eqn:Em;
    [discriminate|].
  injection Hp as ->.
  destruct (matching_policies_head _ _ _ _ _ _ _ Em) as (Hin & _ & Hm & _).
  rewrite Hpol in Hin.
  pose proof (default_allow_not_between_iot p Hin Ha) as Hno.
  destruct (matches_zones _ _ _ _ _ Hm) as [Hsrc Hdst].
  rewrite Hsrc, Hdst, Hsz, Hdz in Hno. discriminate.
Qed.

(** X13: the manager that [setup_security] builds puts every device of the
    experiment into [iot_trusted] or [iot_untrusted] and denies every flow
    between two of them, for every protocol and port. *)
Theorem setup_security_isolates_devices
    (enable_zero_trust : bool) (jwt_token_lifetime_minutes : Z)
    (jwt_secret : string) (clock : nat -> datetime)
    (devices : list (IoTDevice Token)) (segmentation : MicroSegmentationManager)
    (a b : IoTDevice Token) (protocol : string) (port : Z) :
  fst (fst (setup_security jwt_encode load_pem_x509_certificate true
              enable_zero_trust jwt_token_lifetime_minutes jwt_secret clock
              devices)) = Some segmentation ->
  In a devices ->
  In b devices ->
  get_device_zone segmentation (device_id a)
  = Some (zone_of_device_id (device_id a)) /\
  is_iot_zone (zone_of_device_id (device_id a)) = true /\
  fst (evaluate_traffic segmentation (device_id a) (device_id b) protocol port)
  = false.
Proof.
  unfold setup_security. intros Hseg Ha Hb.
  assert (segmentation = setup_segmentation devices) as ->.
  { destruct enable_zero_trust; simpl in Hseg; congruence. }
  unfold setup_segmentation, get_device_zone.
  split; [now apply assign_all_zones|].
  split; [apply zone_of_device_id_iot|].
  eapply default_iot_peers_denied.
  - now rewrite assign_all_policies.
  - now apply assign_all_zones.
  - now apply assign_all_zones.
  - apply zone_of_device_id_iot.
  - apply zone_of_device_id_iot.
Qed.

(** *** Authentication *)




End WithLibraries.

Lemma setup_security_isolates_devices_witness :
  fst (evaluate_traffic (setup_segmentation fleet)
         "camera_000" "sensor_000" "mqtt" 1883) = false /\
  get_device_zone (setup_segmentation fleet) "plug_000" = Some IOT_UNTRUSTED.
Proof.
  split.
  - apply (setup_security_isolates_devices SymbolicJwt.encode
             SymbolicJwt.load_pem false 5 "s3cret" (fun _ => 0) fleet
             (setup_segmentation fleet)
             (mkDevice "camera_000" "smart_camera" None)
             (mkDevice "sensor_000" "industrial_sensor" None) "mqtt" 1883).
    + reflexivity.
    + simpl. tauto.
    + simpl. tauto.
  - apply (setup_security_isolates_devices SymbolicJwt.encode
             SymbolicJwt.load_pem false 5 "s3cret" (fun _ => 0) fleet
             (setup_segmentation fleet)
             (mkDevice "plug_000" "smart_plug" None)
             (mkDevice "plug_000" "smart_plug" None) "mqtt" 1883).
    + reflexivity.
    + simpl. tauto.
    + simpl. tauto.
Defined.

End ExperimentProperties.

(** ** Further properties of the zero-trust authenticator *)

Module AuthenticatorMore.

Import ZeroTrust AuthReports AuthenticatorProperties.

Section WithLibraries.

Context {Token : Type}.
Variable jwt_encode : TokenPayload -> string -> Token.
Variable jwt_decode : Token -> string -> datetime -> JwtOutcome.
Variable load_pem_x509_certificate : list Byte.byte -> option Certificate.

(** *** When authentication succeeds *)





(** *** What an authentication attempt changes *)


(** *** Tokens *)

(** X17: with a JWT library that has the round-trip property
    [codec_round_trip], and timestamps taken as on a host whose local time is
    UTC, the token returned by [authenticate_device] verifies until the second
    in which the session expires, without any warning, and yields the claims
    of the new session: the device, its type, the method, the issue and expiry
    seconds and trust score 100. *)
Theorem issued_token_verifies
    (self self' : ZeroTrustAuthenticator) (device_id device_type : string)
    (credentials : gmap string PyValue) (method : string)
    (now_cert now_auth now : datetime) (token : Token) :
  codec_round_trip jwt_encode jwt_decode ->
  authenticate_device jwt_encode load_pem_x509_certificate self device_id
    device_type credentials method now_cert now_auth = (Some token, self') ->
  timestamp_int now < timestamp_int (now_auth + token_lifetime self) ->
  verify_token jwt_decode self' token now
  = (Some (mkPayload device_id device_type method (timestamp_int now_auth)
             (timestamp_int (now_auth + token_lifetime self)) 100%Q), []).
Proof.
  intros Hcodec Hauth Hnow.
  assert (token
          = jwt_encode
              (mkPayload device_id device_type method (timestamp_int now_auth)
                 (timestamp_int (now_auth + token_lifetime self)) 100%Q)
              (jwt_secret self)
          /\ jwt_secret self' = jwt_secret self) as [-> Hsec].
  { revert Hauth. unfold authenticate_device.
    pose proof (_verify_mtls_certificate_frame load_pem_x509_certificate
                  (with_metrics self (incr_auth_attempts (metrics self)))
                  (credentials !! "certificate") now_cert) as [Hlt _].
    assert (jwt_secret
              (snd (_verify_mtls_certificate load_pem_x509_certificate
                      (with_metrics self (incr_auth_attempts (metrics self)))
                      (credentials !! "certificate") now_cert))
            = jwt_secret self) as Hsec.
    { unfold _verify_mtls_certificate.
      destruct (negb _ || negb _); [reflexivity|].
      destruct (credentials !! "certificate") as [[| |b]|]; try reflexivity.
      destruct (load_pem_x509_certificate b) as [c|]; [|reflexivity].
      destruct (_ || _); reflexivity. }
    destruct (String.eqb method "jwt").
    { destruct (_verify_jwt_credentials device_id credentials); [|discriminate].
      intros [= <- <-]. split; reflexivity. }
    destruct (String.eqb method "mtls").
    { destruct (_verify_mtls_certificate _ _ _ _) as [[|] s]; [|discriminate].
      simpl in Hlt, Hsec. intros [= <- <-]. simpl. rewrite Hlt, Hsec.
      split; reflexivity. }
    destruct (String.eqb method "oauth"); [|discriminate].
    destruct (_verify_oauth_token _); [|discriminate].
    intros [= <- <-]. split; reflexivity. }
  unfold verify_token. rewrite Hsec, Hcodec; [reflexivity|exact Hnow].
Qed.

(** X18: the token returned by a successful [refresh_token] verifies in the
    same way; its trust-score claim is the current, possibly lowered, trust
    score of the device and its expiry claim the new expiry of the session. *)
Theorem refreshed_token_verifies
    (self self' : ZeroTrustAuthenticator) (device_id : string)
    (context : AuthContext) (now_trust now_auth now : datetime) (token : Token) :
  codec_round_trip jwt_encode jwt_decode ->
  auth_contexts self !! device_id = Some context ->
  refresh_token jwt_encode self device_id now_trust now_auth
  = (Some token, self') ->
  timestamp_int now < timestamp_int (now_auth + token_lifetime self) ->
  verify_token jwt_decode self' token now
  = (Some (mkPayload device_id (device_type context) (auth_method context)
             (timestamp_int now_auth)
             (timestamp_int (now_auth + token_lifetime self))
             (trust_score context)), []) /\
  token_refreshes (metrics self') = token_refreshes (metrics self) + 1.
Proof.
  intros Hcodec Hctx. unfold refresh_token. rewrite Hctx.
  destruct (negb (is_trusted context 70%Q now_trust)); [discriminate|].
  intros [= <- <-] Hnow. split; [|reflexivity].
  unfold verify_token. simpl. rewrite Hcodec; [reflexivity|exact Hnow].
Qed.

(** *** Revocation *)

(** X19: after [revoke_authentication] the device has no context: its trust
    score is unknown, a continuous check reports it untrusted without counting
    a trust violation, and a refresh fails and changes nothing. The contexts
    of the other devices stay, and revoking a device that has no context
    changes nothing. *)
Theorem revoke_authentication_ends_session
    (self : ZeroTrustAuthenticator) (device_id : string)
    (behavior_data : gmap string Q)
    (now_guard now_decay now_trust now_auth : datetime) :
  get_trust_score (revoke_authentication self device_id) device_id = None /\
  fst (continuous_authentication_check (revoke_authentication self device_id)
         device_id behavior_data now_guard now_decay now_trust) = false /\
  trust_violations
    (metrics (snd (continuous_authentication_check
                     (revoke_authentication self device_id)
                     device_id behavior_data now_guard now_decay now_trust)))
  = trust_violations (metrics self) /\
  refresh_token jwt_encode (revoke_authentication self device_id) device_id
    now_trust now_auth
  = (None, revoke_authentication self device_id) /\
  (forall other, other <> device_id ->
     auth_contexts (revoke_authentication self device_id) !! other
     = auth_contexts self !! other) /\
  (auth_contexts self !! device_id = None ->
   revoke_authentication self device_id = self).
Proof.
  unfold get_trust_score, continuous_authentication_check, refresh_token,
    revoke_authentication.
  simpl. rewrite lookup_delete_eq. simpl.
  split; [reflexivity|]. split; [reflexivity|]. split; [reflexivity|].
  split; [reflexivity|]. split.
  - intros other Hne. now apply lookup_delete_ne.
  - intros Hnone. unfold with_contexts. rewrite delete_id by assumption.
    now destruct self.
Qed.

(** *** What a continuous check leaves alone *)

(** X20: a continuous check of one device counts one check, never creates a
    context (a device without one still has none afterwards), keeps the
    contexts of all other devices and keeps the secret, the token lifetime and
    the authentication counters. *)
Theorem continuous_check_frame
    (self : ZeroTrustAuthenticator) (device_id : string)
    (behavior_data : gmap string Q) (now_guard now_decay now_trust : datetime) :
  continuous_auth_checks
    (metrics (snd (continuous_authentication_check self device_id
                     behavior_data now_guard now_decay now_trust)))
  = continuous_auth_checks (metrics self) + 1 /\
  (auth_contexts self !! device_id = None ->
   auth_contexts (snd (continuous_authentication_check self device_id
                         behavior_data now_guard now_decay now_trust))
   = auth_contexts self) /\
  (forall other, other <> device_id ->
     auth_contexts (snd (continuous_authentication_check self device_id
                           behavior_data now_guard now_decay now_trust))
       !! other
     = auth_contexts self !! other) /\
  jwt_secret (snd (continuous_authentication_check self device_id
                     behavior_data now_guard now_decay now_trust))
  = jwt_secret self /\
  token_lifetime (snd (continuous_authentication_check self device_id
                         behavior_data now_guard now_decay now_trust))
  = token_lifetime self /\
  auth_success
    (metrics (snd (continuous_authentication_check self device_id
                     behavior_data now_guard now_decay now_trust)))
  = auth_success (metrics self) /\
  auth_failures
    (metrics (snd (continuous_authentication_check self device_id
                     behavior_data now_guard now_decay now_trust)))
  = auth_failures (metrics self).
Proof.
  unfold continuous_authentication_check. simpl.
  destruct (auth_contexts self !! device_id) as [context|] eqn:Hctx;
    [|simpl; repeat split; reflexivity].
  destruct (is_expired context now_guard); [simpl; repeat split; try reflexivity;
                                            discriminate|].
  match goal with |- context [is_trusted ?c _ _] => destruct (is_trusted c 70%Q now_trust) end;
    simpl; (split; [reflexivity|]); (split; [discriminate|]);
    (split; [intros other Hne; now apply lookup_insert_ne|]);
    repeat split; reflexivity.
Qed.

End WithLibraries.

End AuthenticatorMore.

(** ** Sessions over time *)

Module SessionProperties.

Import ZeroTrust AuthReports AuthenticatorProperties.

Section WithLibraries.

Context {Token : Type}.
Variable jwt_encode : TokenPayload -> string -> Token.
Variable load_pem_x509_certificate : list Byte.byte -> option Certificate.

(** *** Abnormal behaviour is remembered *)

Lemma abnormal_call self device_id context c :
  auth_contexts self !! device_id = Some context ->
  behavior_normal context = false ->
  fst (session_call jwt_encode device_id self c) = false /\
  exists context',
    auth_contexts (snd (session_call jwt_encode device_id self c)) !! device_id
    = Some context' /\
    behavior_normal context' = false.
Proof.
  intros Hctx Hbn.
  assert (forall now, is_trusted context 70%Q now = false) as Hnt.
  { intros now. unfold is_trusted. rewrite Hbn.
    now rewrite andb_false_r. }
  destruct c as [bd ng nd nt|nt na]; simpl.
  - unfold continuous_authentication_check. simpl. rewrite Hctx.
    destruct (is_expired context ng); [simpl; eauto|].
    match goal with
    | |- context [is_trusted ?c _ _] =>
        assert (behavior_normal c = false) as Hbn'
          by (destruct (score_gt _ _); simpl; auto);
        assert (is_trusted c 70%Q nt = false) as ->
          by (unfold is_trusted; rewrite Hbn'; now rewrite andb_false_r)
    end.
    simpl. rewrite lookup_insert_eq. eauto.
  - unfold refresh_token. rewrite Hctx, Hnt. simpl. eauto.
Qed.

(** X21: once the stored context of a device records abnormal behaviour, as it
    does after any anomalous check, every later continuous check reports the
    device untrusted and every token refresh fails, whatever the behaviour
    data and the times; the record stays until a new authentication. *)
Theorem abnormal_behaviour_is_sticky
    (self : ZeroTrustAuthenticator) (device_id : string)
    (context : AuthContext) (cs : list SessionCall) :
  auth_contexts self !! device_id = Some context ->
  behavior_normal context = false ->
  Forall (fun verdict => verdict = false)
    (fst (session_calls jwt_encode device_id self cs)) /\
  exists context',
    auth_contexts (snd (session_calls jwt_encode device_id self cs)) !! device_id
    = Some context' /\
    behavior_normal context' = false.
Proof.
  revert self context.
  induction cs as [|c cs IH]; intros self context Hctx Hbn; simpl.
  - split; [constructor|eauto].
  - destruct (abnormal_call self device_id context c Hctx Hbn)
      as (Hv & context1 & Hctx1 & Hbn1).
    destruct (IH _ _ Hctx1 Hbn1) as (Hvs & Hlast).
    split; [constructor; assumption|assumption].
Qed.

(** *** Expired sessions *)

Lemma expired_call self device_id context c :
  auth_contexts self !! device_id = Some context ->
  reads_after (expires_at context) c ->
  fst (session_call jwt_encode device_id self c) = false /\
  auth_contexts (snd (session_call jwt_encode device_id self c))
  = auth_contexts self /\
  trust_violations (metrics (snd (session_call jwt_encode device_id self c)))
  = trust_violations (metrics self) /\
  token_refreshes (metrics (snd (session_call jwt_encode device_id self c)))
  = token_refreshes (metrics self).
Proof.
  intros Hctx Hafter.
  destruct c as [bd ng nd nt|nt na]; simpl in *.
  - unfold continuous_authentication_check. simpl. rewrite Hctx.
    unfold is_expired. destruct (Z.leb_spec (expires_at context) ng); [|lia].
    simpl. auto.
  - unfold refresh_token. rewrite Hctx.
    unfold is_trusted, is_expired.
    destruct (Z.leb_spec (expires_at context) nt); [|lia].
    simpl. auto.
Qed.

(** X22: from the moment a session has expired, continuous checks and token
    refreshes of the device all fail and change neither its context nor the
    trust-violation and refresh counters: an expired session cannot be renewed
    by [refresh_token], only replaced by a new authentication. *)
Theorem expired_session_stays_dead
    (self : ZeroTrustAuthenticator) (device_id : string)
    (context : AuthContext) (cs : list SessionCall) :
  auth_contexts self !! device_id = Some context ->
  Forall (reads_after (expires_at context)) cs ->
  Forall (fun verdict => verdict = false)
    (fst (session_calls jwt_encode device_id self cs)) /\
  auth_contexts (snd (session_calls jwt_encode device_id self cs))
  = auth_contexts self /\
  trust_violations (metrics (snd (session_calls jwt_encode device_id self cs)))
  = trust_violations (metrics self) /\
  token_refreshes (metrics (snd (session_calls jwt_encode device_id self cs)))
  = token_refreshes (metrics self).
Proof.
  intros Hctx Hcs. revert self Hctx.
  induction Hcs as [|c cs Hc Hcs IH]; intros self Hctx; simpl.
  - split; [constructor|auto].
  - destruct (expired_call self device_id context c Hctx Hc)
      as (Hv & Hsame & Htv & Htr).
    destruct (IH (snd (session_call jwt_encode device_id self c)))
      as (Hvs & Hsame' & Htv' & Htr').
    { now rewrite Hsame. }
    split; [constructor; assumption|].
    rewrite Hsame', Htv', Htr'. auto.
Qed.

(** *** Decay *)

Lemma max0_nonneg x : (0 <= max0 x)%Q.
Proof.
  unfold max0, score_gt. destruct (Qle_bool x 0) eqn:E; simpl.
  - apply Qle_refl.
  - apply Qlt_le_weak, Qnot_le_lt. intros H.
    apply Qle_bool_iff in H. congruence.
Qed.

Lemma max0_le x t : (x <= t)%Q -> (0 <= t)%Q -> (max0 x <= t)%Q.
Proof. unfold max0. destruct (score_gt x 0); auto. Qed.

Lemma decay_nonneg rate a b :
  (0 <= rate)%Q -> b <= a -> (0 <= rate * (total_seconds a b / 60))%Q.
Proof.
  intros Hr Hab. apply Qmult_le_0_compat; [assumption|].
  unfold total_seconds, Qdiv. apply Qmult_le_0_compat.
  - unfold Qle. simpl. lia.
  - unfold Qle. simpl. lia.
Qed.

(** X23: a check without anomaly of an unexpired session, with a clock that
    has not gone back behind the authentication time, leaves a trust score
    that is at least 0 and, when the score was not negative, not above the old
    one; the behaviour flag and the session times are not touched. A score
    driven below zero by anomaly penalties is put back to 0. *)
Theorem quiet_check_decays
    (self : ZeroTrustAuthenticator) (device_id : string)
    (context : AuthContext) (behavior_data : gmap string Q)
    (now_guard now_decay now_trust : datetime) :
  auth_contexts self !! device_id = Some context ->
  is_expired context now_guard = false ->
  score_gt (default 0%Q (behavior_data !! "anomaly_score")) (1 # 2)%Q = false ->
  (0 <= trust_decay_rate self)%Q ->
  auth_time context <= now_decay ->
  exists context',
    auth_contexts (snd (continuous_authentication_check self device_id
                          behavior_data now_guard now_decay now_trust))
      !! device_id = Some context' /\
    (0 <= trust_score context')%Q /\
    ((0 <= trust_score context)%Q ->
     (trust_score context' <= trust_score context)%Q) /\
    behavior_normal context' = behavior_normal context /\
    auth_time context' = auth_time context /\
    expires_at context' = expires_at context.
Proof.
  intros Hctx Hexp Hquiet Hrate Htime.
  unfold continuous_authentication_check. simpl.
  rewrite Hctx, Hexp, Hquiet.
  pose proof (decay_nonneg _ _ _ Hrate Htime) as Hdecay.
  match goal with
  | |- context [is_trusted ?c _ _] => destruct (is_trusted c 70%Q now_trust)
  end; simpl; rewrite lookup_insert_eq; eexists; (split; [reflexivity|]);
    simpl; (split; [apply max0_nonneg|]); (split; [|auto]);
    intros Hpos; (apply max0_le; [|assumption]);
    rewrite <- (Qplus_0_r (trust_score context)) at 2;
    unfold Qminus; apply Qplus_le_r;
    apply (Qopp_le_compat 0); assumption.
Qed.

(** [authenticate_device] keeps the settings of the authenticator. *)
Lemma authenticate_device_settings self device_id device_type credentials
    method now_cert now_auth :
  trust_decay_rate
    (snd (authenticate_device jwt_encode load_pem_x509_certificate self
            device_id device_type credentials method now_cert now_auth))
  = trust_decay_rate self.
Proof.
  assert (trust_decay_rate
            (snd (_verify_mtls_certificate load_pem_x509_certificate
                    (with_metrics self (incr_auth_attempts (metrics self)))
                    (credentials !! "certificate") now_cert))
          = trust_decay_rate self) as Hmtls.
  { unfold _verify_mtls_certificate.
    destruct (negb _ || negb _); [reflexivity|].
    destruct (credentials !! "certificate") as [[| |b]|]; try reflexivity.
    destruct (load_pem_x509_certificate b) as [c|]; [|reflexivity].
    destruct (_ || _); reflexivity. }
  unfold authenticate_device.
  destruct (String.eqb method "jwt").
  { destruct (_verify_jwt_credentials device_id credentials); reflexivity. }
  destruct (String.eqb method "mtls").
  { destruct (_verify_mtls_certificate _ _ _ _) as [[|] s]; exact Hmtls. }
  destruct (String.eqb method "oauth"); [|reflexivity].
  destruct (_verify_oauth_token _); reflexivity.
Qed.

(** X24: with the decay rate of 0.1 per minute, a session fresh from
    [authenticate_device] passes a check without anomaly made before its
    expiry, provided the decay clock reads at most 300 minutes after the
    authentication: decay alone does not take a fresh session below the
    threshold of 70. *)
Theorem fresh_session_passes_quiet_check
    (self self' : ZeroTrustAuthenticator) (device_id device_type : string)
    (credentials : gmap string PyValue) (method : string)
    (now_cert now_auth : datetime) (token : Token)
    (behavior_data : gmap string Q) (now_guard now_decay now_trust : datetime) :
  authenticate_device jwt_encode load_pem_x509_certificate self device_id
    device_type credentials method now_cert now_auth = (Some token, self') ->
  trust_decay_rate self = (1 # 10)%Q ->
  score_gt (default 0%Q (behavior_data !! "anomaly_score")) (1 # 2)%Q = false ->
  now_guard < now_auth + token_lifetime self ->
  now_trust < now_auth + token_lifetime self ->
  now_auth <= now_decay <= now_auth + minutes 300 ->
  fst (continuous_authentication_check self' device_id behavior_data
         now_guard now_decay now_trust) = true.
Proof.
  intros Hauth Hrate Hquiet Hguard Htrust Hdecay.
  pose proof (authenticate_device_settings self device_id device_type
                credentials method now_cert now_auth) as Hrate'.
  rewrite Hauth in Hrate'. simpl in Hrate'.
  destruct (authenticate_device_success _ _ _ _ _ _ _ _ _ _ _ Hauth)
    as [_ Hctx].
  unfold continuous_authentication_check. simpl. rewrite Hctx.
  unfold is_expired at 1. simpl.
  destruct (Z.leb_spec (now_auth + token_lifetime self) now_guard); [lia|].
  rewrite Hquiet, Hrate', Hrate.
  match goal with
  | |- context [is_trusted ?c _ _] =>
      assert (is_trusted c 70%Q now_trust = true) as ->; [|reflexivity]
  end.
  unfold is_trusted, is_expired. simpl.
  destruct (Z.leb_spec (now_auth + token_lifetime self) now_trust); [lia|].
  simpl. rewrite !andb_true_r.
  unfold score_ge. apply Qle_bool_iff.
  assert (70 <= 100 - (1 # 10) * (total_seconds now_decay now_auth / 60))%Q
    as Hge.
  { unfold total_seconds, minutes, microseconds_per_second in *.
    unfold Qle, Qminus, Qdiv, Qmult, Qplus, Qopp, Qinv. simpl. lia. }
  unfold max0, score_gt.
  destruct (Qle_bool _ 0) eqn:E; simpl; [|exact Hge].
  apply Qle_bool_iff in E. exfalso.
  apply (Qle_not_lt _ _ (Qle_trans _ _ _ Hge E)). reflexivity.
Qed.

End WithLibraries.

End SessionProperties.

(** ** The session properties on concrete sessions *)

Module SessionExamples.

Import ZeroTrust AuthReports AuthenticatorMore SessionProperties.

(** The symbolic codec has the round-trip property. *)
Lemma symbolic_codec_round_trip :
  codec_round_trip SymbolicJwt.encode SymbolicJwt.decode.
Proof.
  intros payload key now Hnow. unfold SymbolicJwt.decode, SymbolicJwt.encode.
  simpl. rewrite String.eqb_refl. simpl.
  destruct (Z.leb_spec (claim_exp payload) (timestamp_int now)); [lia|].
  reflexivity.
Qed.

Lemma issued_token_verifies_witness :
  verify_token SymbolicJwt.decode AuthExamples.session AuthExamples.issued
    AuthExamples.one_second
  = (Some (mkPayload "cam_01" "camera" "jwt" 0 300 100%Q), []).
Proof.
  apply (issued_token_verifies SymbolicJwt.encode SymbolicJwt.decode
           SymbolicJwt.load_pem AuthExamples.fresh AuthExamples.session
           "cam_01" "camera" AuthExamples.key_bundle "jwt" 0 0
           AuthExamples.one_second AuthExamples.issued).
  - exact symbolic_codec_round_trip.
  - vm_compute. reflexivity.
  - vm_compute. reflexivity.
Defined.

(** A refresh after one minute of quiet behaviour: the new token carries the
    decayed trust score. *)
Lemma refreshed_token_verifies_witness :
  exists token self',
    refresh_token SymbolicJwt.encode
      (snd (AuthExamples.check AuthExamples.session AuthExamples.quiet
              MoreExamples.one_minute))
      "cam_01" MoreExamples.one_minute MoreExamples.one_minute
    = (Some token, self') /\
    fst (verify_token SymbolicJwt.decode self' token MoreExamples.two_minutes)
    = Some (mkPayload "cam_01" "camera" "jwt" 60 360
              (59940000000 # 600000000)%Q).
Proof.
  eexists. eexists. split; [vm_compute; reflexivity|].
  refine (f_equal fst
            (proj1 (refreshed_token_verifies SymbolicJwt.encode
                      SymbolicJwt.decode
                      (snd (AuthExamples.check AuthExamples.session
                              AuthExamples.quiet MoreExamples.one_minute))
                      _ "cam_01"
                      (mkContext "cam_01" "camera" "jwt" 0 300000000
                         (59940000000 # 600000000)%Q true true true)
                      MoreExamples.one_minute MoreExamples.one_minute
                      MoreExamples.two_minutes _
                      symbolic_codec_round_trip _ _ _))).
  - vm_compute. reflexivity.
  - vm_compute. reflexivity.
  - vm_compute. reflexivity.
Defined.

(** One anomalous check, then a quiet check and a refresh: both fail. *)
Lemma abnormal_behaviour_is_sticky_witness :
  Forall (fun verdict => verdict = false)
    (fst (session_calls SymbolicJwt.encode "cam_01"
            (snd (AuthExamples.check AuthExamples.session
                    AuthExamples.anomalous AuthExamples.one_second))
            [CallCheck AuthExamples.quiet MoreExamples.one_minute
               MoreExamples.one_minute MoreExamples.one_minute;
             CallRefresh MoreExamples.one_minute MoreExamples.one_minute])).
Proof.
  apply (proj1 (abnormal_behaviour_is_sticky SymbolicJwt.encode
                  (snd (AuthExamples.check AuthExamples.session
                          AuthExamples.anomalous AuthExamples.one_second))
                  "cam_01"
                  (mkContext "cam_01" "camera" "jwt" 0 300000000 80%Q false
                     true true)
                  [CallCheck AuthExamples.quiet MoreExamples.one_minute
                     MoreExamples.one_minute MoreExamples.one_minute;
                   CallRefresh MoreExamples.one_minute MoreExamples.one_minute]
                  ltac:(vm_compute; reflexivity) eq_refl)).
Defined.

(** The session of "cam_01" expires at 300 s; at 360 s neither a check nor
    a refresh revives it. *)
Lemma expired_session_stays_dead_witness :
  Forall (fun verdict => verdict = false)
    (fst (session_calls SymbolicJwt.encode "cam_01" AuthExamples.session
            [CallRefresh AuthExamples.six_minutes AuthExamples.six_minutes;
             CallCheck AuthExamples.quiet AuthExamples.six_minutes
               AuthExamples.six_minutes AuthExamples.six_minutes])) /\
  auth_contexts
    (snd (session_calls SymbolicJwt.encode "cam_01" AuthExamples.session
            [CallRefresh AuthExamples.six_minutes AuthExamples.six_minutes;
             CallCheck AuthExamples.quiet AuthExamples.six_minutes
               AuthExamples.six_minutes AuthExamples.six_minutes]))
  = auth_contexts AuthExamples.session.
Proof.
  destruct (expired_session_stays_dead SymbolicJwt.encode AuthExamples.session
              "cam_01"
              (mkContext "cam_01" "camera" "jwt" 0 300000000 100%Q true
                 true true)
              [CallRefresh AuthExamples.six_minutes AuthExamples.six_minutes;
               CallCheck AuthExamples.quiet AuthExamples.six_minutes
                 AuthExamples.six_minutes AuthExamples.six_minutes])
    as (Hdead & Hsame & _).
  - vm_compute. reflexivity.
  - repeat constructor; vm_compute; discriminate.
  - split; [exact Hdead|exact Hsame].
Defined.

(** A quiet check of the session driven to -20 by six anomalous checks puts
    the trust score back to 0. *)
Lemma quiet_check_decays_witness :
  exists context',
    auth_contexts
      (snd (AuthExamples.check
              (AuthExamples.anomalous_checks 6 AuthExamples.session
                 AuthExamples.one_second)
              AuthExamples.quiet MoreExamples.one_minute)) !! "cam_01"
    = Some context' /\
    (0 <= trust_score context')%Q /\
    behavior_normal context' = false.
Proof.
  destruct (quiet_check_decays
              (AuthExamples.anomalous_checks 6 AuthExamples.session
                 AuthExamples.one_second)
              "cam_01"
              (mkContext "cam_01" "camera" "jwt" 0 300000000 (-20)%Q false
                 true true)
              AuthExamples.quiet MoreExamples.one_minute
              MoreExamples.one_minute MoreExamples.one_minute)
    as (context' & Hctx & Hpos & _ & Hbn & _).
  - vm_compute. reflexivity.
  - reflexivity.
  - reflexivity.
  - vm_compute. discriminate.
  - vm_compute. discriminate.
  - exists context'. split; [exact Hctx|]. split; [exact Hpos|exact Hbn].
Defined.

Lemma fresh_session_passes_quiet_check_witness :
  fst (AuthExamples.check AuthExamples.session AuthExamples.quiet
         MoreExamples.two_minutes) = true.
Proof.
  apply (fresh_session_passes_quiet_check SymbolicJwt.encode
           SymbolicJwt.load_pem AuthExamples.fresh AuthExamples.session
           "cam_01" "camera" AuthExamples.key_bundle "jwt" 0 0
           AuthExamples.issued AuthExamples.quiet MoreExamples.two_minutes
           MoreExamples.two_minutes MoreExamples.two_minutes).
  - vm_compute. reflexivity.
  - reflexivity.
  - reflexivity.
  - vm_compute. reflexivity.
  - vm_compute. reflexivity.
  - vm_compute. split; discriminate.
Defined.

End SessionExamples.
